(** * Health Navigator (app.py): recommendation and booking handlers

    A shallow embedding of the Streamlit script [app.py].  The script is a
    sequence of event handlers that run top to bottom on every interaction:
    the doctor dashboard (Accept / Decline buttons), the patient's
    "Find a Doctor" button and the booking form.  Each handler is modelled as
    a function from the state it reads (Firestore collections, session state)
    and the widget values of the run to the state it leaves and the way the
    run ended.  External collaborators (classifier, Google Places, Firestore
    auto ids) are parameters of the handlers. *)

From stdpp Require Import base option list strings gmap fin_maps fin_sets.
From Stdlib Require Import ZArith Ascii.

Local Open Scope string_scope.
Local Open Scope list_scope.

(** ** Exceptions and the way a handler run ends *)

(** Python exceptions the handlers can see.  [External] stands for an
    exception raised inside a third-party client (googlemaps, the model),
    named by its class. *)
Inductive exn :=
| KeyError (key : string)
| TypeError
| NotFound (doc_id : string)
| External (cls : string).

(** How one run of a handler ends, as the user sees it. *)
Inductive outcome :=
| Done                      (* the handler body ran to its end *)
| Warned (msg : string)     (* st.warning(msg), nothing else done *)
| Rerun                     (* st.rerun() after a write *)
| Raised (e : exn).         (* except Exception as e: st.error(...) *)

#[global] Instance exn_eq_dec : EqDecision exn.
Proof. solve_decision. Defined.

#[global] Instance outcome_eq_dec : EqDecision outcome.
Proof. solve_decision. Defined.

(** ** Specialty resolver (app.py 369-382) *)

(** A Python dict literal: later pairs overwrite earlier ones. *)
Definition dict_literal (kvs : list (string * string)) : gmap string string :=
  foldl (λ m kv, <[kv.1 := kv.2]> m) ∅ kvs.

Definition specialty_entries : list (string * string) :=
  [ ("Fungal infection", "Dermatologist"); ("Allergy", "Allergist");
    ("GERD", "Gastroenterologist");
    ("Acne", "Dermatologist"); ("Pneumonia", "Pulmonologist");
    ("Jaundice", "Gastroenterologist");
    ("Migraine", "Neurologist"); ("Hypertension ", "Cardiologist");
    ("Heart attack", "Cardiologist");
    ("Paralysis (brain hemorrhage)", "Neurologist");
    ("Chicken pox", "Dermatologist");
    ("Malaria", "General Practitioner"); ("Dengue", "General Practitioner");
    ("Typhoid", "General Practitioner") ].

Definition specialty_map : gmap string string := dict_literal specialty_entries.

(** [specialty_map.get(prediction, 'General Practitioner')] *)
Definition resolve (condition : string) : string :=
  default "General Practitioner" (specialty_map !! condition).

(** ** Symptom catalog (app.py 68-81) *)

(** [get_symptoms_list], on the column names pandas read from Training.csv. *)
Definition get_symptoms_list (all_cols : list string) : list string :=
  filter (λ col, col ≠ "prognosis" ∧ String.prefix "Unnamed:" col = false) all_cols.

(** ** Symptom vectorizer (app.py 361-365) *)

(** A Python dict with integer values, in insertion order.  Assigning to a key
    that is present keeps its position; a new key goes to the end. *)
Fixpoint od_set (k : string) (v : Z) (d : list (string * Z)) : list (string * Z) :=
  match d with
  | [] => [(k, v)]
  | (k', v') :: r =>
      if decide (k = k') then (k', v) :: r else (k', v') :: od_set k v r
  end.

(** [k in d] *)
Definition od_mem (k : string) (d : list (string * Z)) : bool :=
  bool_decide (k ∈ d.*1).

(** [{symptom: 0 for symptom in symptoms}] *)
Definition zero_input (symptoms : list string) : list (string * Z) :=
  foldl (λ d symptom, od_set symptom 0%Z d) [] symptoms.

(** The dict handed to [pd.DataFrame([model_input])]: its keys are the
    columns, its values the single row. *)
Definition model_input (symptoms user_symptoms : list string) : list (string * Z) :=
  foldl (λ d symptom, if od_mem symptom d then od_set symptom 1%Z d else d)
        (zero_input symptoms) user_symptoms.

(** The row of the data frame: the dense feature vector. *)
Definition vectorize (symptoms user_symptoms : list string) : list Z :=
  (model_input symptoms user_symptoms).*2.

(** ** Provider candidates (Google Places results) *)

(** JSON numbers (rating, coordinates) are only passed on, never computed
    with: they are kept as their decimal text. *)
Definition json_number := string.

Record latlng := LatLng { lat : option json_number; lng : option json_number }.
Record geometry := Geometry { location : option latlng }.
Record opening_hours := OpeningHours { open_now : option bool }.

(** The [result] object of a place-details response, one option per key the
    script reads. *)
Record details := Details {
  d_name : option string;
  d_formatted_address : option string;
  d_international_phone_number : option string;
  d_website : option string;
  d_rating : option json_number;
  d_opening_hours : option opening_hours;
  d_geometry : option geometry }.

(** [{}] *)
Definition no_details : details := Details None None None None None None None.

(** One entry of the text-search [results]: the string fields the search
    call provided and, once the loop has set it, the ['details'] key. *)
Record doctor := Doctor {
  fields : gmap string string;
  doctor_details : option details }.

Record map_point := MapPoint { mp_name : string; mp_lat : json_number; mp_lon : json_number }.

(** Response bodies: the keys are read with [.get(key, default)]. *)
Record places_result := PlacesResult { results : option (list doctor) }.
Record place_result := PlaceResult { result : option details }.

(** ** Session state *)

Record session := Session {
  prediction : option string;
  specialist : option string;
  doctors_list : list doctor;
  map_data_list : list map_point;
  booking_confirmation : option string }.

(** ** The "Find a Doctor" handler (app.py 348-408) *)

Section FindDoctor.

(** The symptom catalog, the classifier and the two Google Places calls. *)
Variable symptoms : list string.
Variable predict : list (string * Z) → exn + string.
Variable places : string → exn + places_result.
Variable place : string → exn + place_result.

(** [places_result.get('results', [])[:5]] *)
Definition truncate (r : places_result) : list doctor :=
  take 5 (default [] (results r)).

(** The body of the [for doctor in doctors_list] loop for one candidate.
    The candidate is a shared dict: the assignment [doctor['details'] = ...]
    is visible in the session list even when a later statement raises, so
    the candidate as the loop leaves it is returned in both cases. *)
Definition enrich_one (d : doctor) : doctor * (exn + option map_point) :=
  match fields d !! "place_id" with
  | None => (d, inl (KeyError "place_id"))
  | Some place_id =>
      match place place_id with
      | inl e => (d, inl e)
      | inr place_details =>
          let det := default no_details (result place_details) in
          let d' := Doctor (fields d) (Some det) in
          match d_geometry det with
          | None => (d', inr None)
          | Some g =>
              match location g with
              | None => (d', inl (KeyError "location"))
              | Some loc =>
                  match lat loc, lng loc with
                  | Some la, Some lo =>
                      (d', inr (Some (MapPoint (default "N/A" (d_name det)) la lo)))
                  | None, _ => (d', inl (KeyError "lat"))
                  | Some _, None => (d', inl (KeyError "lng"))
                  end
              end
          end
      end
  end.

(** The loop: the list as it stands when the loop ends or raises, and
    either the exception or [temp_map_data]. *)
Fixpoint enrich (ds : list doctor) (temp_map_data : list map_point)
  : list doctor * (exn + list map_point) :=
  match ds with
  | [] => ([], inr temp_map_data)
  | d :: rest =>
      match enrich_one d with
      | (d', inl e) => (d' :: rest, inl e)
      | (d', inr pt) =>
          let '(rest', r) := enrich rest (temp_map_data ++ option_list pt) in
          (d' :: rest', r)
      end
  end.

Definition find_doctor (user_symptoms : list string) (user_location : string)
    (ss : session) : session * outcome :=
  if bool_decide (user_symptoms = []) || bool_decide (user_location = "") then
    (ss, Warned "Please select at least one symptom or location.")
  else
    let conf := booking_confirmation ss in
    match predict (model_input symptoms user_symptoms) with
    | inl e => (Session None None [] [] conf, Raised e)
    | inr p =>
        let sp := resolve p in
        match places (sp +:+ " in " +:+ user_location) with
        | inl e => (Session (Some p) (Some sp) [] [] conf, Raised e)
        | inr places_result =>
            match enrich (truncate places_result) [] with
            | (dl, inl e) => (Session (Some p) (Some sp) dl [] conf, Raised e)
            | (dl, inr pts) => (Session (Some p) (Some sp) dl pts conf, Done)
            end
        end
    end.

End FindDoctor.

(** ** Firestore *)

(** An appointment document: every field the script stores is a string. *)
Abbreviation document := (gmap string string).
Abbreviation collection := (gmap string (gmap string string)).

(** A doctor profile, as the signup form writes it. *)
Record profile := Profile {
  p_email : string; clinic_name : string; address : string; place_id : string }.

Record firestore := Firestore {
  doctors : gmap string profile;
  appointments : collection }.

(** [collection.where(field, "==", value).stream()], materialised by [list]. *)
Definition where_eq (field value : string) (c : collection)
  : list (string * document) :=
  filter (λ kv, kv.2 !! field = Some value) (map_to_list c).

(** [document(id).update(changes)]: the named fields are overwritten, the
    others kept; a missing document is an error. *)
Definition update (doc_id : string) (changes : document) (c : collection)
  : exn + collection :=
  match c !! doc_id with
  | Some d => inr (<[doc_id := changes ∪ d]> c)
  | None => inl (NotFound doc_id)
  end.

(** [document(id).set(data)] *)
Definition set_doc (doc_id : string) (data : document) (c : collection) : collection :=
  <[doc_id := data]> c.

(** ** Doctor dashboard (app.py 250-311) *)

(** The button the run was triggered by, named by the appointment in its key. *)
Inductive click :=
| NoClick
| Accept (appt_id : string)
| Decline (appt_id : string).

#[global] Instance click_eq_dec : EqDecision click.
Proof. solve_decision. Defined.

(** [check_user_role] caches the profile in the session; the dashboard calls
    it when the cache is empty. *)
Definition load_profile (uid : string) (cached : option profile) (db : firestore)
  : option profile :=
  match cached with
  | Some p => Some p
  | None => doctors db !! uid
  end.

(** The read half of a run: the profile and the query. *)
Definition dashboard_read (uid : string) (cached : option profile) (db : firestore)
  : exn + list (string * document) :=
  match load_profile uid cached db with
  | None => inl TypeError
  | Some p => inr (where_eq "doctor_place_id" (place_id p) (appointments db))
  end.

(** The [for appt in appointments] loop over the documents the query
    returned, writing to the collection as it is when the button handler
    runs. *)
Fixpoint manage (appts : list (string * document)) (ck : click) (c : collection)
  : collection * outcome :=
  match appts with
  | [] => (c, Done)
  | (appt_id, appt_data) :: rest =>
      let status := default "Pending" (appt_data !! "status") in
      if decide (status = "Pending") then
        if decide (ck = Accept appt_id) then
          match update appt_id {["status" := "Accepted"]} c with
          | inr c' => (c', Rerun)
          | inl e => (c, Raised e)
          end
        else if decide (ck = Decline appt_id) then
          match update appt_id {["status" := "Declined"]} c with
          | inr c' => (c', Rerun)
          | inl e => (c, Raised e)
          end
        else manage rest ck c
      else manage rest ck c
  end.

(** The write half of a run, on the documents read earlier. *)
Definition dashboard_write (appts : list (string * document)) (ck : click)
    (db : firestore) : firestore * outcome :=
  match appts with
  | [] => (db, Warned "You have no pending appointments.")
  | _ => let '(c, o) := manage appts ck (appointments db) in
         (Firestore (doctors db) c, o)
  end.

(** One run of the dashboard with nothing happening in between. *)
Definition doctor_dashboard (uid : string) (cached : option profile) (ck : click)
    (db : firestore) : firestore * outcome :=
  match dashboard_read uid cached db with
  | inl e => (db, Raised e)
  | inr appts => dashboard_write appts ck db
  end.

(** A status the dashboard shows buttons for: "Pending", or no status at all. *)
Definition shows_buttons (d : document) : Prop :=
  default "Pending" (d !! "status") = "Pending".

(** Ways a run ends without having written: the loop ran through, the query
    was empty, or there was no profile to read the place id from. *)
Definition nothing_written (o : outcome) : Prop :=
  o = Done ∨ o = Warned "You have no pending appointments." ∨ o = Raised TypeError.

(** ** Booking form (app.py 454-486) *)

Record user := User { email : string; localId : string }.

(** The dict passed to [doc_ref.set]. *)
Definition appointment_data (u : user) (patient_name_input name doctor_place_id
    appt_date appt_time : string) : document :=
  dict_literal
    [ ("patient_email", email u); ("patient_id", localId u);
      ("patient_name", patient_name_input); ("doctor_name", name);
      ("doctor_place_id", doctor_place_id);
      ("appointment_date", appt_date); ("appointment_time", appt_time);
      ("status", "Pending") ].

(** The submit handler of the form of one candidate.  [appt_date] and
    [appt_time] are the widget values as [str] prints them; [new_id] is the
    id [collection.document()] generated; [set_error] is the text of the
    exception [doc_ref.set] raised, if it raised one.  Either way the
    message for the next run is stored and the script reruns. *)
Definition book_submit (u : user) (name doctor_place_id : string)
    (patient_name_input appt_date appt_time : string) (new_id : string)
    (set_error : option string)
    (c : collection) (ss : session) : collection * session * outcome :=
  if bool_decide (patient_name_input = "") then
    (c, ss, Warned "Please enter your name.")
  else
    match set_error with
    | None =>
        let c' := set_doc new_id
                    (appointment_data u patient_name_input name doctor_place_id
                       appt_date appt_time) c in
        let msg := "✅ Success! Your appointment request for " +:+ name +:+ " has been sent." in
        (c', Session (prediction ss) (specialist ss) (doctors_list ss)
               (map_data_list ss) (Some msg), Rerun)
    | Some e =>
        let msg := "❌ Error: Could not book appointment. " +:+ e in
        (c, Session (prediction ss) (specialist ss) (doctors_list ss)
              (map_data_list ss) (Some msg), Rerun)
    end.

(** ** Result cards (app.py 417-450) *)

(** [name.replace(' ', '+')] *)
Fixpoint replace_space (s : string) : string :=
  match s with
  | EmptyString => EmptyString
  | String c r =>
      String (if Ascii.eqb c " "%char then "+"%char else c) (replace_space r)
  end.

(** What the card of one candidate shows, and what its booking form books. *)
Record card := Card {
  card_place_id : string;
  card_name : string;
  card_address : string;
  card_phone : string;
  card_website : option string;
  card_rating : string;
  card_open_now : string;
  card_gmaps_url : string }.

(** The body of the display loop up to the booking form.  [doctor['place_id']]
    is read outside any [try]: a candidate without it ends the script with
    the KeyError. *)
Definition candidate_card (d : doctor) : exn + card :=
  let det := default no_details (doctor_details d) in
  match fields d !! "place_id" with
  | None => inl (KeyError "place_id")
  | Some pid =>
      let name := default "N/A" (d_name det) in
      let label :=
        match d_opening_hours det with
        | None => "Status unknown"
        | Some oh => if default false (open_now oh) then "🟢 Open now" else "🔴 Closed"
        end in
      inr (Card pid name
             (default "Address not available" (d_formatted_address det))
             (default "Phone not available" (d_international_phone_number det))
             (d_website det)
             (default "N/A" (d_rating det))
             label
             ("https://www.google.com/maps/search/?api=1&query="
                +:+ replace_space name +:+ "&query_place_id=" +:+ pid))
  end.

(** The booking form inside a card books under the card's name and place
    id. *)
Definition book_candidate (u : user) (d : doctor)
    (patient_name_input appt_date appt_time new_id : string)
    (set_error : option string)
    (c : collection) (ss : session) : exn + collection * session * outcome :=
  match candidate_card d with
  | inl e => inl e
  | inr k =>
      inr (book_submit u (card_name k) (card_place_id k) patient_name_input
             appt_date appt_time new_id set_error c ss)
  end.

(** [if website:] decides between the link button and "Website N/A". *)
Definition website_link (k : card) : option string :=
  match card_website k with
  | Some w => if bool_decide (w = "") then None else Some w
  | None => None
  end.

(** The flash message above the results (app.py 341-344): shown when set,
    and cleared by showing it. *)
Definition show_confirmation (ss : session) : option string * session :=
  match booking_confirmation ss with
  | Some msg =>
      if bool_decide (msg = "") then (None, ss)
      else (Some msg, Session (prediction ss) (specialist ss) (doctors_list ss)
                        (map_data_list ss) None)
  | None => (None, ss)
  end.

(** The recommendations column of one run (app.py 339-408): the flash
    message is shown and cleared first; then, when the button was clicked,
    the handler runs on the session as the clearing left it. *)
Definition find_doctor_tab (symptoms : list string)
    (predict : list (string * Z) → exn + string)
    (places : string → exn + places_result)
    (place : string → exn + place_result)
    (find_doctor_button : bool) (user_symptoms : list string)
    (user_location : string) (ss : session)
  : option string * session * outcome :=
  let '(shown, ss1) := show_confirmation ss in
  if find_doctor_button then
    let '(ss2, o) := find_doctor symptoms predict places place user_symptoms
                       user_location ss1 in
    (shown, ss2, o)
  else (shown, ss1, Done).

(** ** My appointments (app.py 506-540) *)

Inductive badge := BadgeWarning | BadgeSuccess | BadgeError.

(** The [if status == ... elif ...] chain of both appointment tables. *)
Definition status_badge (status : string) : option badge :=
  if bool_decide (status = "Pending") then Some BadgeWarning
  else if bool_decide (status = "Accepted") then Some BadgeSuccess
  else if bool_decide (status = "Declined") then Some BadgeError
  else None.

Record appointment_row := AppointmentRow {
  row_doctor : option string;
  row_date : option string;
  row_time : option string;
  row_status : string }.

Definition patient_row (appt_data : document) : appointment_row :=
  AppointmentRow (appt_data !! "doctor_name") (appt_data !! "appointment_date")
    (appt_data !! "appointment_time") (default "Pending" (appt_data !! "status")).

(** The query of the tab. *)
Definition my_appointments (u : user) (c : collection) : list (string * document) :=
  where_eq "patient_id" (localId u) c.

(** The tab: the warning for an empty list, else one row per appointment
    (under a banner that only states their number). *)
Definition patient_tab (u : user) (c : collection) : outcome * list appointment_row :=
  match my_appointments u c with
  | [] => (Warned "You have no appointments. Find a doctor to get started!", [])
  | appts => (Done, (λ a, patient_row a.2) <$> appts)
  end.

(** ** Accounts (app.py 110-119, 138-218) *)

(** [check_user_role]: the role, and the profile cached in the session. *)
Definition check_user_role (user_id : string) (db : option firestore)
    (cached : option profile) : string * option profile :=
  match db with
  | Some db =>
      match doctors db !! user_id with
      | Some p => ("doctor", Some p)
      | None => ("patient", cached)
      end
  | None => ("patient", cached)
  end.

(** The part of the session the login writes. *)
Record login_state := LoginState {
  ls_user : option user;
  ls_user_role : option string;
  ls_doctor_profile : option profile }.

(** The calls a form makes to the identity provider, in order. *)
Inductive auth_call :=
| SignIn (email password : string)
| CreateUser (email password : string)
| DeleteUser (id_token : string).

(** What [create_user_with_email_and_password] returns, as far as it is read. *)
Record account := Account { acc_localId : string; acc_idToken : string }.

(** How a signup form answers. *)
Inductive form_result :=
| FormWarning (msg : string)        (* st.warning *)
| FormError (msg : string)          (* st.error *)
| FormSuccess (msg : string)        (* st.success *)
| FormStopped (msg : string)        (* st.error, then st.stop() *)
| FormFailed (e : exn).             (* except Exception as e: Sign up failed: e *)

(** Which page the script shows (app.py 128, 244, 314). *)
Inductive page := LoginPage | DoctorDashboard | PatientApp | NoPage.

Definition route (st : login_state) : page :=
  match ls_user st with
  | None => LoginPage
  | Some _ =>
      if bool_decide (ls_user_role st = Some "doctor") then DoctorDashboard
      else if bool_decide (ls_user_role st = Some "patient") then PatientApp
      else NoPage
  end.

Section Accounts.

(** The identity provider and the unrestricted Places text search. *)
Variable sign_in : string → string → exn + user.
Variable create_user : string → string → exn + account.
Variable delete_user_account : string → exn + unit.
Variable places_query : string → exn + places_result.

(** The login form.  The user is stored in the session before the role is
    looked up; [get_error] is the exception the profile lookup
    [doc_ref.get()] of [check_user_role] raised, if it raised one (without a
    database client there is no lookup).  An exception of the sign-in or of
    the lookup ends in the same "Login failed" error, without a rerun. *)
Definition login (email password : string) (db : option firestore)
    (get_error : option exn) (st : login_state) : login_state * outcome :=
  match sign_in email password with
  | inl e => (st, Raised e)
  | inr u =>
      match db, get_error with
      | Some _, Some e =>
          (LoginState (Some u) (ls_user_role st) (ls_doctor_profile st), Raised e)
      | _, _ =>
          let '(role, prof) :=
            check_user_role (localId u) db (ls_doctor_profile st) in
          (LoginState (Some u) (Some role) prof, Rerun)
      end
  end.

(** The patient signup form. *)
Definition patient_signup (email password confirm_password : string)
  : list auth_call * form_result :=
  if bool_decide (email = "") || bool_decide (password = "")
     || bool_decide (confirm_password = "") then
    ([], FormWarning "Please fill out all fields.")
  else if bool_decide (password ≠ confirm_password) then
    ([], FormError "Passwords do not match.")
  else
    match create_user email password with
    | inr _ => ([CreateUser email password],
                FormSuccess "Patient account created successfully! Please log in.")
    | inl _ => ([CreateUser email password],
                FormError "Sign up failed. This email may already be in use.")
    end.

(** The three reads of the top search result. *)
Definition top_result_profile (email : string) (top : doctor) : exn + profile :=
  match fields top !! "name" with
  | None => inl (KeyError "name")
  | Some found_name =>
      match fields top !! "formatted_address" with
      | None => inl (KeyError "formatted_address")
      | Some found_address =>
          match fields top !! "place_id" with
          | None => inl (KeyError "place_id")
          | Some found_place_id =>
              inr (Profile email found_name found_address found_place_id)
          end
      end
  end.

(** The doctor signup form: the store it leaves, the calls it made to the
    identity provider, and its answer. *)
Definition doctor_signup (email password clinic_name clinic_location : string)
    (db : firestore) : firestore * list auth_call * form_result :=
  if bool_decide (email = "") || bool_decide (password = "")
     || bool_decide (clinic_name = "") || bool_decide (clinic_location = "") then
    (db, [], FormWarning "Please fill out all fields.")
  else
    match create_user email password with
    | inl e => (db, [CreateUser email password], FormFailed e)
    | inr acc =>
        let query := clinic_name +:+ " " +:+ clinic_location in
        match places_query query with
        | inl e => (db, [CreateUser email password], FormFailed e)
        | inr places_result =>
            match default [] (results places_result) with
            | [] =>
                let calls := [CreateUser email password; DeleteUser (acc_idToken acc)] in
                match delete_user_account (acc_idToken acc) with
                | inl e => (db, calls, FormFailed e)
                | inr _ =>
                    (db, calls,
                     FormStopped ("Error: Could not find a clinic matching '"
                                    +:+ query +:+ "'."))
                end
            | top_result :: _ =>
                match top_result_profile email top_result with
                | inl e => (db, [CreateUser email password], FormFailed e)
                | inr (Profile _ found_name _ _ as profile_data) =>
                    (Firestore (<[acc_localId acc := profile_data]> (doctors db))
                       (appointments db),
                     [CreateUser email password],
                     FormSuccess ("Success! Your profile for '" +:+ found_name
                                    +:+ "' is created. Please log in."))
                end
            end
        end
    end.

End Accounts.

(** ** Notions used to state properties *)

(** The specialties the table can yield. *)
Definition specialties : list string :=
  [ "Dermatologist"; "Allergist"; "Gastroenterologist"; "Pulmonologist";
    "Neurologist"; "Cardiologist"; "General Practitioner" ].

(** The marker a candidate contributes to the map, read from the details
    the loop stored on it. *)
Definition map_point_of (d : doctor) : option map_point :=
  det ← doctor_details d;
  g ← d_geometry det;
  loc ← location g;
  la ← lat loc;
  lo ← lng loc;
  Some (MapPoint (default "N/A" (d_name det)) la lo).

(** Every stored status is one of the three the tables know. *)
Definition known_status (d : document) : Prop :=
  d !! "status" = Some "Pending" ∨ d !! "status" = Some "Accepted" ∨
  d !! "status" = Some "Declined".

Definition statuses_known (c : collection) : Prop :=
  map_Forall (λ _ d, known_status d) c.

#[global] Instance known_status_dec (d : document) : Decision (known_status d).
Proof. unfold known_status. apply _. Defined.

#[global] Instance statuses_known_dec (c : collection) : Decision (statuses_known c).
Proof. unfold statuses_known. apply _. Defined.

(** ** Sample data for concrete runs *)

(** Two accounts registered for the same clinic, and one for another. *)
Definition rao : profile :=
  Profile "rao@example.org" "Rao Skin Clinic" "12 Hazratganj, Lucknow" "place-rao".
Definition rao_partner : profile :=
  Profile "mehta@example.org" "Rao Skin Clinic" "12 Hazratganj, Lucknow" "place-rao".
Definition sen : profile :=
  Profile "sen@example.org" "Sen Heart Centre" "4 Gomti Nagar, Lucknow" "place-sen".

Definition sample_doctors : gmap string profile :=
  <["uid-rao" := rao]> (<["uid-mehta" := rao_partner]> (<["uid-sen" := sen]> ∅)).

Definition asha : user := User "asha@example.org" "uid-asha".

(** Asha's request to the Rao clinic, with the given status. *)
Definition rao_request (status : string) : document :=
  <["status" := status]>
    (appointment_data asha "Asha Verma" "Rao Skin Clinic" "place-rao"
       "2025-03-01" "10:30:00").

Definition sen_request : document :=
  appointment_data asha "Asha Verma" "Sen Heart Centre" "place-sen"
    "2025-03-02" "09:00:00".

Definition sample_db (status : string) : firestore :=
  Firestore sample_doctors
    (<["appt-1" := rao_request status]> (<["appt-2" := sen_request]> ∅)).

(** A catalog, a classifier that always answers "Fungal infection", and a
    Places service that knows seven dermatologists in Lucknow and nothing
    elsewhere; the detail lookup of the second one fails. *)
Definition sample_symptoms : list string :=
  ["itching"; "skin_rash"; "chills"; "joint_pain"].

Definition sample_predict (input : list (string * Z)) : exn + string :=
  inr "Fungal infection".

Definition candidate (place_id name : string) : doctor :=
  Doctor (dict_literal [("place_id", place_id); ("name", name)]) None.

Definition sample_results : list doctor :=
  [ candidate "place-1" "Derma One"; candidate "place-2" "Derma Two";
    candidate "place-3" "Derma Three"; candidate "place-4" "Derma Four";
    candidate "place-5" "Derma Five"; candidate "place-6" "Derma Six";
    candidate "place-7" "Derma Seven" ].

Definition sample_places (query : string) : exn + places_result :=
  if decide (query = "Dermatologist in Lucknow")
  then inr (PlacesResult (Some sample_results))
  else inr (PlacesResult (Some [])).

Definition sample_details (place_id : string) : details :=
  Details (Some place_id) None None None (Some "4.5") None
          (Some (Geometry (Some (LatLng (Some "26.85") (Some "80.95"))))).

Definition sample_place (place_id : string) : exn + place_result :=
  if decide (place_id = "place-2") then inl (External "ApiError")
  else inr (PlaceResult (Some (sample_details place_id))).

Definition fresh_session : session := Session None None [] [] None.

(** An identity provider that knows one taken address and accepts the
    password "secret", and a text search that finds one clinic. *)
Definition sample_create_user (email password : string) : exn + account :=
  if decide (email = "taken@example.org") then inl (External "HTTPError")
  else inr (Account ("uid-" +:+ email) ("token-" +:+ email)).

Definition sample_delete_user_account (id_token : string) : exn + unit := inr tt.

Definition sample_sign_in (email password : string) : exn + user :=
  if decide (password = "secret") then inr (User email ("uid-" +:+ email))
  else inl (External "HTTPError").

Definition sample_places_query (query : string) : exn + places_result :=
  if decide (query = "Rao Skin Clinic Lucknow")
  then inr (PlacesResult (Some
         [Doctor (dict_literal [("name", "Rao Skin Clinic");
                                ("formatted_address", "12 Hazratganj, Lucknow");
                                ("place_id", "place-rao")]) None]))
  else inr (PlacesResult (Some [])).

(** * Properties *)

(** ** Specialty resolver *)

Lemma dict_literal_list_to_map (kvs : list (string * string)) :
  dict_literal kvs = list_to_map (reverse kvs).
Proof.
  unfold dict_literal.
  induction kvs as [|[k v] kvs IH] using rev_ind; [done|].
  rewrite foldl_app, reverse_app. simpl. by rewrite IH.
Qed.

Lemma specialty_keys_nodup : NoDup specialty_entries.*1.
Proof. apply (bool_decide_unpack _). vm_compute. exact I. Qed.

(** The table holds exactly the pairs of the literal. *)
Lemma specialty_map_lookup (c v : string) :
  specialty_map !! c = Some v ↔ (c, v) ∈ specialty_entries.
Proof.
  unfold specialty_map. rewrite dict_literal_list_to_map.
  rewrite <- elem_of_list_to_map.
  - by rewrite elem_of_reverse.
  - rewrite fmap_reverse, reverse_Permutation. apply specialty_keys_nodup.
Qed.

Lemma specialty_map_absent (c : string) :
  specialty_map !! c = None ↔ c ∉ specialty_entries.*1.
Proof.
  rewrite eq_None_not_Some. apply not_iff_compat.
  rewrite list_elem_of_fmap. split.
  - intros [v Hv]. exists (c, v). split; [done|]. by apply specialty_map_lookup.
  - intros [[c' v] [-> Hin]]. exists v. by apply specialty_map_lookup.
Qed.

(** C5: [resolve] is a total function of the condition string; a condition
    present in the specialty table is sent to the specialty the table pairs
    it with, and every condition absent from the table is sent to
    "General Practitioner". *)
Theorem resolve_table_or_fallback :
  (∀ c v, (c, v) ∈ specialty_entries → resolve c = v) ∧
  (∀ c v, specialty_map !! c = Some v → resolve c = v) ∧
  (∀ c, c ∉ specialty_entries.*1 → resolve c = "General Practitioner") ∧
  (∀ c, specialty_map !! c = None → resolve c = "General Practitioner") ∧
  (∀ c, ∃ s, resolve c = s ∧
        ((c, s) ∈ specialty_entries ∨
         ((c ∉ specialty_entries.*1) ∧ s = "General Practitioner"))).
Proof.
  assert (Hin : ∀ c v, specialty_map !! c = Some v → resolve c = v).
  { intros c v H. unfold resolve. by rewrite H. }
  assert (Hout : ∀ c, specialty_map !! c = None → resolve c = "General Practitioner").
  { intros c H. unfold resolve. by rewrite H. }
  split_and!; try done.
  - intros c v H. by apply Hin, specialty_map_lookup.
  - intros c H. by apply Hout, specialty_map_absent.
  - intros c. destruct (specialty_map !! c) as [v|] eqn:E.
    + exists v. split; [by apply Hin|]. left. by apply specialty_map_lookup.
    + exists "General Practitioner". split; [by apply Hout|].
      right. split; [|done]. by apply specialty_map_absent.
Qed.

Lemma resolve_table_or_fallback_witness :
  resolve "GERD" = "Gastroenterologist" ∧
  resolve "Common Cold" = "General Practitioner".
Proof.
  destruct resolve_table_or_fallback as (Hin & _ & Hout & _). split.
  - apply Hin. apply (bool_decide_unpack _). vm_compute. exact I.
  - apply Hout. apply (bool_decide_unpack _). vm_compute. exact I.
Defined.

Lemma resolve_cardiologist (c : string) :
  resolve c = "Cardiologist" ↔ c = "Hypertension " ∨ c = "Heart attack".
Proof.
  split.
  - unfold resolve. destruct (specialty_map !! c) as [v|] eqn:E; simpl.
    + intros ->. apply specialty_map_lookup in E.
      unfold specialty_entries in E.
      repeat (apply elem_of_cons in E as [E|E]; [inversion E; auto; fail|]).
      by apply elem_of_nil in E.
    + discriminate.
  - intros [-> | ->]; vm_compute; reflexivity.
Qed.

(** C10: the hypertension entry of the table is keyed 'Hypertension ' with a
    trailing space.  The label "Hypertension" without the space is not a key
    and resolves to the fallback "General Practitioner"; the key with the
    space resolves to "Cardiologist", and the only labels that resolve to
    "Cardiologist" at all are that key and 'Heart attack'. *)
Theorem resolve_hypertension_trailing_space :
  ("Hypertension ", "Cardiologist") ∈ specialty_entries ∧
  specialty_map !! "Hypertension" = None ∧
  resolve "Hypertension" = "General Practitioner" ∧
  resolve "Hypertension " = "Cardiologist" ∧
  (∀ c, resolve c = "Cardiologist" ↔ c = "Hypertension " ∨ c = "Heart attack").
Proof.
  split_and!.
  - unfold specialty_entries. set_solver.
  - vm_compute. reflexivity.
  - vm_compute. reflexivity.
  - vm_compute. reflexivity.
  - apply resolve_cardiologist.
Qed.

(** ** Symptom vectorizer *)

Lemma od_set_fresh (k : string) (v : Z) (d : list (string * Z)) :
  k ∉ (d.*1) → od_set k v d = d ++ [(k, v)].
Proof.
  induction d as [|[k' v'] d IH]; simpl; [done|].
  intros Hk. apply not_elem_of_cons in Hk as [Hne Hk].
  case_decide; [done|]. by rewrite IH.
Qed.

Lemma od_set_keys (k : string) (v : Z) (d : list (string * Z)) :
  k ∈ (d.*1) → (od_set k v d).*1 = d.*1.
Proof.
  induction d as [|[k' v'] d IH]; simpl.
  - by intros ?%elem_of_nil.
  - intros Hk. case_decide; [done|]. simpl. f_equal. apply IH.
    apply elem_of_cons in Hk as [?|?]; [congruence|done].
Qed.

(** Assigning to a key of a dict whose keys are distinct changes the value
    at that key only. *)
Lemma od_set_tabulated (k : string) (v : Z) (f : string → Z) (l : list string) :
  NoDup l → k ∈ l →
  od_set k v ((λ s, (s, f s)) <$> l)
  = (λ s, (s, if decide (s = k) then v else f s)) <$> l.
Proof.
  induction l as [|x l IH]; simpl.
  - by intros _ ?%elem_of_nil.
  - intros [Hx Hl]%NoDup_cons Hk.
    destruct (decide (k = x)) as [->|Hne].
    + rewrite decide_True by done. f_equal.
      apply list_fmap_ext. intros i y Hy.
      rewrite decide_False; [done|]. intros ->.
      apply Hx. by eapply list_elem_of_lookup_2.
    + rewrite (decide_False (P := x = k)) by done. f_equal.
      apply IH; [done|]. apply elem_of_cons in Hk as [?|?]; [congruence|done].
Qed.

Lemma zero_input_snoc (l : list string) (x : string) :
  zero_input (l ++ [x]) = od_set x 0%Z (zero_input l).
Proof. unfold zero_input. by rewrite foldl_app. Qed.

Lemma zero_input_keys_elem (l : list string) (x : string) :
  x ∈ (zero_input l).*1 ↔ x ∈ l.
Proof.
  induction l as [|y l IH] using rev_ind.
  - done.
  - rewrite zero_input_snoc, elem_of_app, list_elem_of_singleton.
    destruct (decide (y ∈ (zero_input l).*1)) as [Hy|Hy].
    + rewrite od_set_keys by done. rewrite IH. split; [tauto|].
      intros [?| ->]; [done|]. by apply IH.
    + rewrite od_set_fresh by done. rewrite fmap_app, elem_of_app, IH.
      simpl. by rewrite list_elem_of_singleton.
Qed.

Lemma zero_input_tabulated (l : list string) :
  NoDup l → zero_input l = (λ s, (s, 0%Z)) <$> l.
Proof.
  induction l as [|x l IH] using rev_ind; [done|].
  intros [Hl [Hx _]]%NoDup_app.
  rewrite zero_input_snoc, IH by done.
  rewrite od_set_fresh, fmap_app; [done|].
  rewrite <- list_fmap_compose, list_fmap_id.
  intros Hin. apply (Hx x Hin). by apply list_elem_of_singleton.
Qed.

Lemma mark_tabulated (l us : list string) (f : string → Z) :
  NoDup l →
  foldl (λ d symptom, if od_mem symptom d then od_set symptom 1%Z d else d)
        ((λ s, (s, f s)) <$> l) us
  = (λ s, (s, if bool_decide (s ∈ us) then 1%Z else f s)) <$> l.
Proof.
  intros Hl. revert f. induction us as [|u us IH]; intros f; simpl.
  - done.
  - unfold od_mem at 2. rewrite <- list_fmap_compose, list_fmap_id.
    case_bool_decide as Hu.
    + rewrite od_set_tabulated, IH by done.
      apply list_fmap_ext. intros i y _. f_equal.
      destruct (decide (y = u)) as [->|Hne].
      * rewrite (bool_decide_eq_true_2 (u ∈ u :: us)) by set_solver.
        by case_bool_decide.
      * by rewrite (bool_decide_ext (y ∈ u :: us) (y ∈ us))
          by (rewrite elem_of_cons; tauto).
    + rewrite IH. apply list_fmap_ext. intros i y Hy. f_equal.
      assert (y ≠ u) by (intros ->; apply Hu; by eapply list_elem_of_lookup_2).
      by rewrite (bool_decide_ext (y ∈ u :: us) (y ∈ us))
          by (rewrite elem_of_cons; tauto).
Qed.

(** The dict the classifier receives, for a catalog without repeated names. *)
Lemma model_input_tabulated (symptoms user_symptoms : list string) :
  NoDup symptoms →
  model_input symptoms user_symptoms
  = (λ s, (s, if bool_decide (s ∈ user_symptoms) then 1%Z else 0%Z)) <$> symptoms.
Proof.
  intros Hl. unfold model_input. rewrite zero_input_tabulated by done.
  by apply mark_tabulated.
Qed.

Lemma vectorize_tabulated (symptoms user_symptoms : list string) :
  NoDup symptoms →
  vectorize symptoms user_symptoms
  = (λ s, if bool_decide (s ∈ user_symptoms) then 1%Z else 0%Z) <$> symptoms.
Proof.
  intros Hl. unfold vectorize. rewrite model_input_tabulated by done.
  by rewrite <- list_fmap_compose.
Qed.

Lemma count_ones_tabulated (l us : list string) :
  length (filter (λ x, x = 1%Z)
            ((λ s, if bool_decide (s ∈ us) then 1%Z else 0%Z) <$> l))
  = length (filter (λ s, s ∈ us) l).
Proof.
  induction l as [|x l IH]; [done|].
  rewrite fmap_cons, !filter_cons.
  case_bool_decide; repeat case_decide; simpl; try done; by rewrite IH.
Qed.

Lemma get_symptoms_list_nodup (all_cols : list string) :
  NoDup all_cols → NoDup (get_symptoms_list all_cols).
Proof. apply NoDup_filter. Qed.

Lemma count_reported (l us : list string) :
  NoDup l → us ⊆ l →
  length (filter (λ s, s ∈ us) l) = size (list_to_set us : gset string).
Proof.
  intros Hl Hsub.
  rewrite <- (size_list_to_set (C := gset string) (filter (λ s, s ∈ us) l))
    by by apply NoDup_filter.
  f_equal. apply set_eq. intros x.
  rewrite !elem_of_list_to_set, list_elem_of_filter. split; [tauto|].
  intros Hx. split; [done|]. by apply Hsub.
Qed.

(** C8: for a catalog of distinct identifiers (the column names pandas read)
    and a reported list that is non-empty and contained in the catalog, the
    vector handed to the classifier has the catalog's length and the
    catalog's order, holds 1 at exactly the positions whose identifier was
    reported and 0 at all others, and so holds as many ones as there are
    distinct reported identifiers. *)
Theorem vectorize_reported_subset (symptoms user_symptoms : list string) :
  NoDup symptoms →
  user_symptoms ≠ [] →
  user_symptoms ⊆ symptoms →
  (model_input symptoms user_symptoms).*1 = symptoms ∧
  length (vectorize symptoms user_symptoms) = length symptoms ∧
  (∀ i s, symptoms !! i = Some s →
     vectorize symptoms user_symptoms !! i
     = Some (if bool_decide (s ∈ user_symptoms) then 1%Z else 0%Z)) ∧
  length (filter (λ x, x = 1%Z) (vectorize symptoms user_symptoms))
  = size (list_to_set user_symptoms : gset string) ∧
  (NoDup user_symptoms →
   length (filter (λ x, x = 1%Z) (vectorize symptoms user_symptoms))
   = length user_symptoms).
Proof.
  intros Hl Hne Hsub.
  assert (Hcount :
    length (filter (λ x, x = 1%Z) (vectorize symptoms user_symptoms))
    = size (list_to_set user_symptoms : gset string)).
  { rewrite vectorize_tabulated, count_ones_tabulated by done.
    by apply count_reported. }
  split_and!.
  - rewrite model_input_tabulated by done.
    rewrite <- list_fmap_compose. apply list_fmap_id.
  - rewrite vectorize_tabulated by done. apply length_fmap.
  - intros i s Hi. rewrite vectorize_tabulated by done.
    by rewrite list_lookup_fmap, Hi.
  - exact Hcount.
  - intros Hus. rewrite Hcount. by apply size_list_to_set.
Qed.

Lemma vectorize_reported_subset_witness :
  let symptoms := ["itching"; "skin_rash"; "chills"; "joint_pain"] in
  let user_symptoms := ["skin_rash"; "itching"] in
  (model_input symptoms user_symptoms).*1 = symptoms ∧
  length (vectorize symptoms user_symptoms) = length symptoms ∧
  (∀ i s, symptoms !! i = Some s →
     vectorize symptoms user_symptoms !! i
     = Some (if bool_decide (s ∈ user_symptoms) then 1%Z else 0%Z)) ∧
  length (filter (λ x, x = 1%Z) (vectorize symptoms user_symptoms))
  = size (list_to_set user_symptoms : gset string) ∧
  (NoDup user_symptoms →
   length (filter (λ x, x = 1%Z) (vectorize symptoms user_symptoms))
   = length user_symptoms).
Proof.
  apply (vectorize_reported_subset
           ["itching"; "skin_rash"; "chills"; "joint_pain"]
           ["skin_rash"; "itching"]).
  - apply (bool_decide_unpack _). vm_compute. exact I.
  - discriminate.
  - apply (bool_decide_unpack _). vm_compute. exact I.
Defined.

Example vectorize_itching_rash :
  vectorize ["itching"; "skin_rash"; "chills"; "joint_pain"]
            ["skin_rash"; "itching"] = [1; 1; 0; 0]%Z.
Proof. vm_compute. reflexivity. Qed.

(** Unknown names take the [if symptom in model_input] branch that does
    nothing. *)
Lemma mark_ignores_unknown (us : list string) (d : list (string * Z)) :
  foldl (λ d symptom, if od_mem symptom d then od_set symptom 1%Z d else d) d us
  = foldl (λ d symptom, if od_mem symptom d then od_set symptom 1%Z d else d) d
      (filter (λ s, s ∈ d.*1) us).
Proof.
  revert d. induction us as [|u us IH]; intros d; [done|].
  rewrite filter_cons. simpl. unfold od_mem at 2.
  case_bool_decide as Hu.
  - rewrite decide_True by done. simpl. unfold od_mem at 3.
    rewrite bool_decide_eq_true_2 by done.
    rewrite IH. by rewrite od_set_keys by done.
  - rewrite decide_False by done. apply IH.
Qed.

Lemma model_input_ignores_unknown (symptoms user_symptoms : list string) :
  model_input symptoms user_symptoms
  = model_input symptoms (filter (λ s, s ∈ symptoms) user_symptoms).
Proof.
  unfold model_input. rewrite mark_ignores_unknown. do 2 f_equal.
  apply list_filter_iff. intros x. apply zero_input_keys_elem.
Qed.

(** ** Firestore queries and the dashboard loop *)

Lemma where_eq_elem (field value : string) (c : collection) (id : string)
    (d : document) :
  (id, d) ∈ where_eq field value c ↔ c !! id = Some d ∧ d !! field = Some value.
Proof.
  unfold where_eq. rewrite list_elem_of_filter, elem_of_map_to_list. simpl. tauto.
Qed.

Lemma where_eq_nodup (field value : string) (c : collection) :
  NoDup (where_eq field value c).*1.
Proof.
  eapply sublist_NoDup; [apply (NoDup_fst_map_to_list c)|].
  apply fmap_sublist, sublist_filter.
Qed.

Lemma update_status (id st : string) (d : document) (c : collection) :
  c !! id = Some d →
  update id {["status" := st]} c = inr (<[id := <["status" := st]> d]> c).
Proof.
  intros H. unfold update. rewrite H. by rewrite <- insert_union_singleton_l.
Qed.

(** The loop writes nothing when the clicked button is not among the buttons
    it renders. *)
Lemma manage_no_button (appts : list (string * document)) (ck : click)
    (c : collection) :
  (∀ id d, (id, d) ∈ appts → shows_buttons d → ck ≠ Accept id ∧ ck ≠ Decline id) →
  manage appts ck c = (c, Done).
Proof.
  induction appts as [|[id d] appts IH]; intros H; simpl; [done|].
  assert (manage appts ck c = (c, Done)) as Hrest.
  { apply IH. intros id' d' Hin. apply H. by right. }
  case_decide as Hp; [|done].
  destruct (H id d) as [Ha Hd]; [by left|done|].
  by rewrite !decide_False by done.
Qed.

(** The loop reaches the one entry of the clicked appointment. *)
Lemma manage_button (appts : list (string * document)) (ck : click)
    (c : collection) (id st : string) (d : document) :
  NoDup appts.*1 → (id, d) ∈ appts → shows_buttons d →
  (ck = Accept id ∧ st = "Accepted") ∨ (ck = Decline id ∧ st = "Declined") →
  manage appts ck c =
    match update id {["status" := st]} c with
    | inr c' => (c', Rerun)
    | inl e => (c, Raised e)
    end.
Proof.
  induction appts as [|[id' d'] appts IH]; simpl.
  - by intros _ ?%elem_of_nil.
  - intros [Hid' Hnd]%NoDup_cons Hin Hp Hck.
    apply elem_of_cons in Hin as [Heq|Hin].
    + injection Heq as <- <-. rewrite decide_True by done.
      destruct Hck as [[-> ->]|[-> ->]].
      * by rewrite decide_True by done.
      * rewrite decide_False by done. by rewrite decide_True by done.
    + assert (id' ≠ id) as Hne.
      { intros ->. apply Hid'. apply list_elem_of_fmap. by exists (id, d). }
      assert (ck ≠ Accept id' ∧ ck ≠ Decline id') as [Ha Hd].
      { destruct Hck as [[-> _]|[-> _]]; split; congruence. }
      case_decide; [rewrite !decide_False by done|]; by apply IH.
Qed.

(** Every way the loop can end: nothing written, or one status written to the
    appointment the clicked button names, or that document missing. *)
Lemma manage_cases (appts : list (string * document)) (ck : click)
    (c : collection) :
  manage appts ck c = (c, Done) ∨
  ∃ id d st, (id, d) ∈ appts ∧ shows_buttons d ∧
    ((ck = Accept id ∧ st = "Accepted") ∨ (ck = Decline id ∧ st = "Declined")) ∧
    ((∃ d0, c !! id = Some d0 ∧
            manage appts ck c = (<[id := <["status" := st]> d0]> c, Rerun)) ∨
     (c !! id = None ∧ manage appts ck c = (c, Raised (NotFound id)))).
Proof.
  induction appts as [|[id d] appts IH]; simpl; [by left|].
  assert (∀ st, (ck = Accept id ∧ st = "Accepted") ∨ (ck = Decline id ∧ st = "Declined") →
    shows_buttons d →
    ∀ r, r = match update id {["status" := st]} c with
             | inr c' => (c', Rerun) | inl e => (c, Raised e) end →
    ∃ id0 d1 st0, (id0, d1) ∈ (id, d) :: appts ∧ shows_buttons d1 ∧
      ((ck = Accept id0 ∧ st0 = "Accepted") ∨ (ck = Decline id0 ∧ st0 = "Declined")) ∧
      ((∃ d0, c !! id0 = Some d0 ∧ r = (<[id0 := <["status" := st0]> d0]> c, Rerun)) ∨
       (c !! id0 = None ∧ r = (c, Raised (NotFound id0))))) as Hhit.
  { intros st Hck Hp r ->. exists id, d, st. split_and!; [by left|done|done|].
    destruct (c !! id) as [d0|] eqn:E.
    - left. exists d0. split; [done|]. by rewrite (update_status _ _ d0).
    - right. split; [done|]. unfold update. by rewrite E. }
  assert (manage appts ck c = (c, Done) ∨
    ∃ id0 d1 st0, (id0, d1) ∈ (id, d) :: appts ∧ shows_buttons d1 ∧
      ((ck = Accept id0 ∧ st0 = "Accepted") ∨ (ck = Decline id0 ∧ st0 = "Declined")) ∧
      ((∃ d0, c !! id0 = Some d0 ∧
              manage appts ck c = (<[id0 := <["status" := st0]> d0]> c, Rerun)) ∨
       (c !! id0 = None ∧ manage appts ck c = (c, Raised (NotFound id0))))) as Hrest.
  { destruct IH as [?|(id0&d1&st0&Hin&?)]; [by left|].
    right. exists id0, d1, st0. split; [by right|done]. }
  case_decide as Hp; [|done].
  case_decide as Ha; [right; by eapply (Hhit "Accepted"); auto|].
  case_decide as Hd; [right; by eapply (Hhit "Declined"); auto|].
  done.
Qed.

(** ** One run of the doctor dashboard *)

(** A run either writes nothing, or sets the status of one listed appointment
    of the doctor's own place that still showed its buttons. *)
Lemma doctor_dashboard_cases (uid : string) (cached : option profile)
    (ck : click) (db : firestore) :
  (∃ o, doctor_dashboard uid cached ck db = (db, o) ∧ nothing_written o) ∨
  (∃ p id d st,
     load_profile uid cached db = Some p ∧
     appointments db !! id = Some d ∧
     d !! "doctor_place_id" = Some (place_id p) ∧
     shows_buttons d ∧
     ((ck = Accept id ∧ st = "Accepted") ∨ (ck = Decline id ∧ st = "Declined")) ∧
     doctor_dashboard uid cached ck db
     = (Firestore (doctors db) (<[id := <["status" := st]> d]> (appointments db)),
        Rerun)).
Proof.
  unfold doctor_dashboard, dashboard_read.
  destruct (load_profile uid cached db) as [p|] eqn:Hp.
  2:{ left. eexists. split; [done|]. unfold nothing_written. auto. }
  destruct db as [docs c]. simpl.
  set (appts := where_eq "doctor_place_id" (place_id p) c).
  assert (Hall : ∀ id d, (id, d) ∈ appts →
            c !! id = Some d ∧ d !! "doctor_place_id" = Some (place_id p)).
  { intros id d Hin. by apply where_eq_elem in Hin. }
  unfold dashboard_write. simpl.
  destruct appts as [|a appts'] eqn:Happts.
  { left. eexists. split; [done|]. unfold nothing_written. auto. }
  rewrite <- Happts in *.
  destruct (manage_cases appts ck c) as [->|(id&d&st&Hin&Hs&Hck&Hw)].
  { left. eexists. split; [done|]. unfold nothing_written. auto. }
  destruct (Hall id d Hin) as [Hc Hplace].
  destruct Hw as [(d0&Hd0&->)|[Hnone _]]; [|congruence].
  assert (d0 = d) as -> by congruence.
  right. exists p, id, d, st. done.
Qed.

(** The first transition: the owner's click on a listed appointment that
    shows its buttons writes the status. *)
Lemma doctor_dashboard_transition (uid : string) (cached : option profile)
    (ck : click) (db : firestore) (p : profile) (id st : string) (d : document) :
  load_profile uid cached db = Some p →
  appointments db !! id = Some d →
  d !! "doctor_place_id" = Some (place_id p) →
  shows_buttons d →
  (ck = Accept id ∧ st = "Accepted") ∨ (ck = Decline id ∧ st = "Declined") →
  doctor_dashboard uid cached ck db
  = (Firestore (doctors db) (<[id := <["status" := st]> d]> (appointments db)),
     Rerun).
Proof.
  intros Hp Hd Hplace Hs Hck.
  unfold doctor_dashboard, dashboard_read. rewrite Hp.
  assert ((id, d) ∈ where_eq "doctor_place_id" (place_id p) (appointments db)) as Hin.
  { by apply where_eq_elem. }
  unfold dashboard_write.
  destruct (where_eq "doctor_place_id" (place_id p) (appointments db))
    as [|a appts'] eqn:Happts.
  { by apply elem_of_nil in Hin. }
  rewrite <- Happts in *.
  rewrite (manage_button _ ck _ id st d); [|apply where_eq_nodup|done..].
  by rewrite (update_status _ _ d).
Qed.

(** A document whose status is present and not "Pending" survives every run. *)
Lemma doctor_dashboard_frozen (uid : string) (cached : option profile)
    (ck : click) (db : firestore) (id s : string) (d : document) :
  appointments db !! id = Some d → d !! "status" = Some s → s ≠ "Pending" →
  appointments (doctor_dashboard uid cached ck db).1 !! id = Some d.
Proof.
  intros Hd Hs Hne.
  destruct (doctor_dashboard_cases uid cached ck db)
    as [(o&->&_)|(p&id'&d'&st&_&Hd'&_&Hb&_&->)]; [done|].
  simpl. rewrite lookup_insert_ne; [done|].
  intros ->. assert (d' = d) as -> by congruence.
  unfold shows_buttons in Hb. rewrite Hs in Hb. simpl in Hb. done.
Qed.

(** A click on a button of such a document finds no button: nothing is
    written and the run ends as if nothing had been clicked. *)
Lemma doctor_dashboard_no_button (uid : string) (cached : option profile)
    (ck : click) (db : firestore) (id s : string) (d : document) :
  appointments db !! id = Some d → d !! "status" = Some s → s ≠ "Pending" →
  ck = Accept id ∨ ck = Decline id →
  ∃ o, doctor_dashboard uid cached ck db = (db, o) ∧ nothing_written o.
Proof.
  intros Hd Hs Hne Hck.
  destruct (doctor_dashboard_cases uid cached ck db)
    as [?|(p&id'&d'&st&_&Hd'&_&Hb&Hck'&_)]; [done|].
  assert (id' = id) as ->.
  { destruct Hck as [->| ->], Hck' as [[? _]|[? _]]; congruence. }
  assert (d' = d) as -> by congruence.
  unfold shows_buttons in Hb. rewrite Hs in Hb. simpl in Hb. done.
Qed.

(** As above, with the outcome pinned down for a doctor whose list holds the
    document: the loop runs to its end. *)
Lemma doctor_dashboard_no_button_owner (uid : string) (cached : option profile)
    (ck : click) (db : firestore) (p : profile) (id s : string) (d : document) :
  load_profile uid cached db = Some p →
  appointments db !! id = Some d →
  d !! "doctor_place_id" = Some (place_id p) →
  d !! "status" = Some s → s ≠ "Pending" →
  ck = Accept id ∨ ck = Decline id →
  doctor_dashboard uid cached ck db = (db, Done).
Proof.
  intros Hp Hd Hplace Hs Hne Hck.
  unfold doctor_dashboard, dashboard_read. rewrite Hp.
  assert ((id, d) ∈ where_eq "doctor_place_id" (place_id p) (appointments db)) as Hin.
  { by apply where_eq_elem. }
  unfold dashboard_write.
  destruct (where_eq "doctor_place_id" (place_id p) (appointments db))
    as [|a appts'] eqn:Happts.
  { by apply elem_of_nil in Hin. }
  rewrite <- Happts in *.
  rewrite manage_no_button; [by destruct db|].
  intros id' d' Hin' Hb.
  apply where_eq_elem in Hin' as [Hd' _].
  assert (id' ≠ id) as Hid.
  { intros ->. assert (d' = d) as -> by congruence.
    unfold shows_buttons in Hb. rewrite Hs in Hb. simpl in Hb. done. }
  destruct Hck as [->| ->]; split; congruence.
Qed.

(** ** Two runs on the same record *)

(** The read half lists a document of the doctor's place. *)
Lemma dashboard_read_lists (uid : string) (cached : option profile)
    (db : firestore) (p : profile) (id : string) (d : document) :
  load_profile uid cached db = Some p →
  appointments db !! id = Some d →
  d !! "doctor_place_id" = Some (place_id p) →
  ∃ appts, dashboard_read uid cached db = inr appts ∧
           NoDup appts.*1 ∧ (id, d) ∈ appts.
Proof.
  intros Hp Hd Hplace. unfold dashboard_read. rewrite Hp.
  eexists. split; [done|]. split; [apply where_eq_nodup|by apply where_eq_elem].
Qed.

(** The write half trusts the documents it was given: when they show the
    record with its buttons, the status is written over whatever the store
    holds for the record by then. *)
Lemma dashboard_write_stale (appts : list (string * document)) (ck : click)
    (db : firestore) (id st : string) (d d0 : document) :
  NoDup appts.*1 → (id, d) ∈ appts → shows_buttons d →
  appointments db !! id = Some d0 →
  (ck = Accept id ∧ st = "Accepted") ∨ (ck = Decline id ∧ st = "Declined") →
  dashboard_write appts ck db
  = (Firestore (doctors db) (<[id := <["status" := st]> d0]> (appointments db)),
     Rerun).
Proof.
  intros Hnd Hin Hb Hd0 Hck. unfold dashboard_write.
  destruct appts as [|a appts'] eqn:Happts.
  { by apply elem_of_nil in Hin. }
  rewrite <- Happts in *.
  rewrite (manage_button _ ck _ id st d) by done.
  by rewrite (update_status _ _ d0).
Qed.

(** The write half leaves alone every record that the documents it was
    given do not show with buttons, whatever the store holds by then. *)
Lemma dashboard_write_skips (appts : list (string * document)) (ck : click)
    (db : firestore) (id : string) :
  (∀ d', (id, d') ∈ appts → ¬ shows_buttons d') →
  appointments (dashboard_write appts ck db).1 !! id = appointments db !! id.
Proof.
  intros Hno. unfold dashboard_write.
  destruct appts as [|a appts'] eqn:Happts; [done|].
  rewrite <- Happts in *.
  destruct (manage_cases appts ck (appointments db))
    as [->|(id' & d' & st & Hin & Hb & _ & [(d0 & _ & ->)|[_ ->]])]; [done| |done].
  simpl. rewrite lookup_insert_ne; [done|].
  intros ->. by apply (Hno d').
Qed.

(** The documents a query returns for a record are the stored ones. *)
Lemma dashboard_read_elem (uid : string) (cached : option profile)
    (db : firestore) (appts : list (string * document)) (id : string)
    (d : document) :
  dashboard_read uid cached db = inr appts → (id, d) ∈ appts →
  appointments db !! id = Some d ∧ NoDup appts.*1.
Proof.
  unfold dashboard_read. destruct (load_profile uid cached db); [|discriminate].
  intros [= <-] Hin. split; [|apply where_eq_nodup].
  apply where_eq_elem in Hin as [Hd _]. exact Hd.
Qed.

(** C1 (amended): the doctor's click on Accept or Decline of a Pending
    record listed for the doctor writes that status and reruns.  From then
    on the record is immutable for every run of the dashboard whose query
    read it in its terminal state, in particular for every run that starts
    after the write: whoever runs it, whatever is clicked and whatever the
    store holds when the run writes, the record is left as it is; a click
    on its Accept or Decline finds no button, so the run writes nothing and
    ends as a run without a click does (no error for the attempted
    transition is raised).  Immutability is not unconditional: a run whose
    query read the record while it was still Pending, and which writes after
    the record became terminal, overwrites the terminal status. *)
Theorem terminal_status_immutable :
  (∀ uid cached ck db id s d,
     appointments db !! id = Some d →
     d !! "status" = Some s → s = "Accepted" ∨ s = "Declined" →
     appointments (doctor_dashboard uid cached ck db).1 !! id = Some d ∧
     (ck = Accept id ∨ ck = Decline id →
      ∃ o, doctor_dashboard uid cached ck db = (db, o) ∧ nothing_written o)) ∧
  (∀ uid cached ck db p id st d,
     load_profile uid cached db = Some p →
     appointments db !! id = Some d →
     d !! "doctor_place_id" = Some (place_id p) →
     d !! "status" = Some "Pending" →
     (ck = Accept id ∧ st = "Accepted") ∨ (ck = Decline id ∧ st = "Declined") →
     let db1 := Firestore (doctors db)
                  (<[id := <["status" := st]> d]> (appointments db)) in
     doctor_dashboard uid cached ck db = (db1, Rerun) ∧
     ∀ uid' cached' ck',
       appointments (doctor_dashboard uid' cached' ck' db1).1 !! id
       = Some (<["status" := st]> d) ∧
       (ck' = Accept id ∨ ck' = Decline id →
        ∃ o, doctor_dashboard uid' cached' ck' db1 = (db1, o) ∧ nothing_written o)) ∧
  (∀ uid cached db0 appts ck db id s,
     dashboard_read uid cached db0 = inr appts →
     (∃ d0, appointments db0 !! id = Some d0 ∧ d0 !! "status" = Some s) →
     s = "Accepted" ∨ s = "Declined" →
     appointments (dashboard_write appts ck db).1 !! id = appointments db !! id) ∧
  (∀ uid cached db0 appts ck db id st d d0,
     dashboard_read uid cached db0 = inr appts →
     (id, d) ∈ appts → d !! "status" = Some "Pending" →
     appointments db !! id = Some d0 →
     (ck = Accept id ∧ st = "Accepted") ∨ (ck = Decline id ∧ st = "Declined") →
     dashboard_write appts ck db
     = (Firestore (doctors db) (<[id := <["status" := st]> d0]> (appointments db)),
        Rerun)).
Proof.
  assert (Hterm : ∀ s, s = "Accepted" ∨ s = "Declined" → s ≠ "Pending").
  { intros s [->| ->]; discriminate. }
  split_and!.
  - intros uid cached ck db id s d Hd Hs Ht. split.
    + eapply doctor_dashboard_frozen; eauto.
    + intros Hck. eapply doctor_dashboard_no_button; eauto.
  - intros uid cached ck db p id st d Hp Hd Hplace Hs Hck db1. split.
    + apply (doctor_dashboard_transition _ _ _ _ p); try done.
      unfold shows_buttons. by rewrite Hs.
    + assert (st ≠ "Pending") as Hst.
      { destruct Hck as [[_ ->]|[_ ->]]; discriminate. }
      assert (appointments db1 !! id = Some (<["status" := st]> d)) as Hd1.
      { subst db1. simpl. by rewrite lookup_insert_eq. }
      assert (<["status" := st]> d !! "status" = Some st) as Hs1.
      { by rewrite lookup_insert_eq. }
      intros uid' cached' ck'. split.
      * eapply doctor_dashboard_frozen; eauto.
      * intros Hck'. eapply doctor_dashboard_no_button; eauto.
  - intros uid cached db0 appts ck db id s Hread (d0 & Hd0 & Hs) Ht.
    apply dashboard_write_skips. intros d' Hin Hb.
    destruct (dashboard_read_elem _ _ _ _ _ _ Hread Hin) as [Hd' _].
    assert (d' = d0) as -> by congruence.
    unfold shows_buttons in Hb. rewrite Hs in Hb. simpl in Hb.
    by apply (Hterm s).
  - intros uid cached db0 appts ck db id st d d0 Hread Hin Hs Hd0 Hck.
    destruct (dashboard_read_elem _ _ _ _ _ _ Hread Hin) as [_ Hnd].
    apply (dashboard_write_stale appts ck db id st d d0); try done.
    unfold shows_buttons. by rewrite Hs.
Qed.

Lemma terminal_status_immutable_witness :
  doctor_dashboard "uid-rao" None (Accept "appt-1") (sample_db "Pending")
  = (sample_db "Accepted", Rerun) ∧
  (∃ o, doctor_dashboard "uid-mehta" None (Decline "appt-1") (sample_db "Accepted")
        = (sample_db "Accepted", o) ∧ nothing_written o) ∧
  appointments
    (dashboard_write [("appt-1", rao_request "Accepted")] (Decline "appt-1")
       (sample_db "Accepted")).1 !! "appt-1"
  = appointments (sample_db "Accepted") !! "appt-1" ∧
  dashboard_write [("appt-1", rao_request "Pending")] (Decline "appt-1")
    (sample_db "Accepted")
  = (sample_db "Declined", Rerun).
Proof.
  destruct terminal_status_immutable as (Hfrozen & Honce & Hskip & Hstale).
  split_and!.
  - destruct (Honce "uid-rao" None (Accept "appt-1") (sample_db "Pending") rao
                "appt-1" "Accepted" (rao_request "Pending")) as [H _];
      [reflexivity | reflexivity | reflexivity | reflexivity | left; done |].
    exact H.
  - apply (Hfrozen "uid-mehta" None (Decline "appt-1") (sample_db "Accepted")
             "appt-1" "Accepted" (rao_request "Accepted"));
      [reflexivity | reflexivity | left; reflexivity | right; reflexivity].
  - apply (Hskip "uid-mehta" None (sample_db "Accepted")
             [("appt-1", rao_request "Accepted")] (Decline "appt-1")
             (sample_db "Accepted") "appt-1" "Accepted");
      [reflexivity | eexists; split; reflexivity | left; reflexivity].
  - apply (Hstale "uid-mehta" None (sample_db "Pending")
             [("appt-1", rao_request "Pending")] (Decline "appt-1")
             (sample_db "Accepted") "appt-1" "Declined" (rao_request "Pending")
             (rao_request "Accepted"));
      [reflexivity | apply list_elem_of_here | reflexivity | reflexivity
      | right; split; reflexivity].
Defined.

(** C1, as stated, fails twice over.  The second transition attempt on an
    Accepted record does not end in an error: the run ends normally with the
    store unchanged.  And the record does not stay as it is under every
    attempt: a run that read it as Pending before it was accepted declines
    it afterwards. *)
Lemma second_transition_raises_nothing :
  doctor_dashboard "uid-rao" None (Decline "appt-1") (sample_db "Accepted")
  = (sample_db "Accepted", Done) ∧
  (¬ ∃ e, (doctor_dashboard "uid-rao" None (Decline "appt-1")
             (sample_db "Accepted")).2 = Raised e) ∧
  dashboard_read "uid-mehta" None (sample_db "Pending")
  = inr [("appt-1", rao_request "Pending")] ∧
  dashboard_write [("appt-1", rao_request "Pending")] (Decline "appt-1")
    (sample_db "Accepted")
  = (sample_db "Declined", Rerun).
Proof.
  assert (doctor_dashboard "uid-rao" None (Decline "appt-1") (sample_db "Accepted")
          = (sample_db "Accepted", Done)) as H by (vm_compute; reflexivity).
  split_and!; [exact H| |vm_compute; reflexivity..].
  rewrite H. intros [e He]. discriminate.
Qed.

(** C2 (amended): the transition is a read of the status followed by an
    unconditional write of the status field.  When the second actor's run
    starts after the first actor's write, it finds no button, writes nothing
    and ends normally, so one write is accepted.  When both runs have read
    the record as Pending before either writes, both writes are accepted,
    the later one overwrites the status the earlier one set, and neither
    actor sees an error. *)
Theorem transition_race_unguarded
    (db : firestore) (uidA uidB : string) (cachedA cachedB : option profile)
    (pA pB : profile) (ckA ckB : click) (stA stB id : string) (d : document) :
  load_profile uidA cachedA db = Some pA →
  load_profile uidB cachedB db = Some pB →
  appointments db !! id = Some d →
  d !! "doctor_place_id" = Some (place_id pA) →
  place_id pB = place_id pA →
  d !! "status" = Some "Pending" →
  (ckA = Accept id ∧ stA = "Accepted") ∨ (ckA = Decline id ∧ stA = "Declined") →
  (ckB = Accept id ∧ stB = "Accepted") ∨ (ckB = Decline id ∧ stB = "Declined") →
  let db1 := Firestore (doctors db)
               (<[id := <["status" := stA]> d]> (appointments db)) in
  let db2 := Firestore (doctors db)
               (<[id := <["status" := stB]> d]> (appointments db)) in
  (* B runs after A has written *)
  (doctor_dashboard uidA cachedA ckA db = (db1, Rerun) ∧
   doctor_dashboard uidB cachedB ckB db1 = (db1, Done)) ∧
  (* A and B both read before A writes *)
  (∃ apptsA apptsB,
     dashboard_read uidA cachedA db = inr apptsA ∧
     dashboard_read uidB cachedB db = inr apptsB ∧
     dashboard_write apptsA ckA db = (db1, Rerun) ∧
     dashboard_write apptsB ckB db1 = (db2, Rerun)).
Proof.
  intros HpA HpB Hd Hplace Hsame Hs HckA HckB db1 db2.
  assert (shows_buttons d) as Hb by (unfold shows_buttons; by rewrite Hs).
  assert (appointments db1 !! id = Some (<["status" := stA]> d)) as Hd1.
  { subst db1. simpl. by rewrite lookup_insert_eq. }
  split.
  - split.
    + by apply (doctor_dashboard_transition _ _ _ _ pA).
    + apply (doctor_dashboard_no_button_owner _ _ _ _ pB id stA (<["status" := stA]> d)).
      * by destruct cachedB.
      * done.
      * rewrite lookup_insert_ne by done. by rewrite Hsame.
      * by rewrite lookup_insert_eq.
      * destruct HckA as [[_ ->]|[_ ->]]; discriminate.
      * destruct HckB as [[-> _]|[-> _]]; auto.
  - destruct (dashboard_read_lists uidA cachedA db pA id d) as (apptsA&HrA&HndA&HinA);
      [done..|].
    destruct (dashboard_read_lists uidB cachedB db pB id d) as (apptsB&HrB&HndB&HinB);
      [done| done | by rewrite Hsame |].
    exists apptsA, apptsB. split_and!; [done|done|..].
    + by apply (dashboard_write_stale _ _ _ id stA d d).
    + rewrite (dashboard_write_stale _ _ _ id stB d (<["status" := stA]> d)) by done.
      subst db1 db2. simpl. by rewrite !insert_insert_eq.
Qed.

Lemma transition_race_unguarded_witness :
  (doctor_dashboard "uid-rao" None (Accept "appt-1") (sample_db "Pending")
   = (sample_db "Accepted", Rerun) ∧
   doctor_dashboard "uid-mehta" None (Decline "appt-1") (sample_db "Accepted")
   = (sample_db "Accepted", Done)) ∧
  (∃ apptsA apptsB,
     dashboard_read "uid-rao" None (sample_db "Pending") = inr apptsA ∧
     dashboard_read "uid-mehta" None (sample_db "Pending") = inr apptsB ∧
     dashboard_write apptsA (Accept "appt-1") (sample_db "Pending")
     = (sample_db "Accepted", Rerun) ∧
     dashboard_write apptsB (Decline "appt-1") (sample_db "Accepted")
     = (sample_db "Declined", Rerun)).
Proof.
  apply (transition_race_unguarded (sample_db "Pending") "uid-rao" "uid-mehta"
           None None rao rao_partner (Accept "appt-1") (Decline "appt-1")
           "Accepted" "Declined" "appt-1" (rao_request "Pending"));
    [reflexivity | reflexivity | reflexivity | reflexivity | reflexivity
    | reflexivity | left; split; reflexivity | right; split; reflexivity].
Defined.

(** C2, as stated, fails: two identities of the same clinic both read the
    Pending record, then one accepts and the other declines.  Both writes go
    through (both runs end in a rerun, neither in an error) and the Accepted
    status is overwritten by Declined. *)
Lemma racing_transitions_both_written :
  let appts := [("appt-1", rao_request "Pending")] in
  dashboard_read "uid-rao" None (sample_db "Pending") = inr appts ∧
  dashboard_read "uid-mehta" None (sample_db "Pending") = inr appts ∧
  dashboard_write appts (Accept "appt-1") (sample_db "Pending")
  = (sample_db "Accepted", Rerun) ∧
  dashboard_write appts (Decline "appt-1") (sample_db "Accepted")
  = (sample_db "Declined", Rerun) ∧
  appointments (sample_db "Accepted") !! "appt-1" = Some (rao_request "Accepted") ∧
  appointments (sample_db "Declined") !! "appt-1" = Some (rao_request "Declined").
Proof. repeat split; vm_compute; reflexivity. Qed.

(** ** Ownership and frame of a transition *)

(** C3 (amended): a doctor whose place id differs from the record's
    [doctor_place_id] does not get the record listed: every run of that
    doctor leaves the record unchanged, and a click on its Accept or Decline
    button writes nothing and ends without any error (normally, or with the
    empty-list warning).  When a run does write (it ends in a rerun), it has
    set the status of one Pending record of the doctor's own place to the
    clicked value: the doctor profiles, every other record, and every field
    of that record other than [status] are unchanged. *)
Theorem transition_owner_and_frame :
  (∀ uid cached ck db p id d,
     load_profile uid cached db = Some p →
     appointments db !! id = Some d →
     d !! "doctor_place_id" ≠ Some (place_id p) →
     appointments (doctor_dashboard uid cached ck db).1 !! id = Some d ∧
     (ck = Accept id ∨ ck = Decline id →
      ∃ o, doctor_dashboard uid cached ck db = (db, o) ∧
           (o = Done ∨ o = Warned "You have no pending appointments."))) ∧
  (∀ uid cached ck db db',
     doctor_dashboard uid cached ck db = (db', Rerun) →
     ∃ p id d st,
       load_profile uid cached db = Some p ∧
       appointments db !! id = Some d ∧
       d !! "doctor_place_id" = Some (place_id p) ∧
       shows_buttons d ∧
       ((ck = Accept id ∧ st = "Accepted") ∨ (ck = Decline id ∧ st = "Declined")) ∧
       doctors db' = doctors db ∧
       appointments db' !! id = Some (<["status" := st]> d) ∧
       (<["status" := st]> d) !! "status" = Some st ∧
       (∀ k, k ≠ "status" → (<["status" := st]> d) !! k = d !! k) ∧
       (∀ id', id' ≠ id → appointments db' !! id' = appointments db !! id')).
Proof.
  split.
  - intros uid cached ck db p id d Hp Hd Hplace.
    destruct (doctor_dashboard_cases uid cached ck db)
      as [(o&Ho&Hn)|(p'&id'&d'&st&Hp'&Hd'&Hplace'&_&Hck'&Hrun)].
    + rewrite Ho. split; [done|]. intros _. exists o. split; [done|].
      destruct Hn as [-> | [-> | ->]]; auto.
      exfalso. revert Ho. unfold doctor_dashboard, dashboard_read. rewrite Hp.
      unfold dashboard_write.
      destruct (where_eq _ _ _); [discriminate|].
      destruct (manage_cases (p0 :: l) ck (appointments db))
        as [->|(?&?&?&_&_&_&[(?&_&->)|[_ ->]])]; discriminate.
    + assert (p' = p) as -> by congruence.
      assert (id' ≠ id) as Hid by (intros ->; congruence).
      rewrite Hrun. simpl. rewrite lookup_insert_ne by done. split; [done|].
      intros Hck. exfalso.
      destruct Hck as [->| ->], Hck' as [[? _]|[? _]]; congruence.
  - intros uid cached ck db db' Hrun.
    destruct (doctor_dashboard_cases uid cached ck db)
      as [(o&Ho&Hn)|(p&id&d&st&Hp&Hd&Hplace&Hb&Hck&Hrun')].
    + rewrite Ho in Hrun. injection Hrun as _ ->.
      destruct Hn as [?|[?|?]]; discriminate.
    + rewrite Hrun' in Hrun. injection Hrun as <-.
      exists p, id, d, st. simpl. split_and!; try done.
      * by rewrite lookup_insert_eq.
      * by rewrite lookup_insert_eq.
      * intros k Hk. by rewrite lookup_insert_ne.
      * intros id' Hid. by rewrite lookup_insert_ne.
Qed.

Lemma transition_owner_and_frame_witness :
  (appointments
     (doctor_dashboard "uid-sen" None (Accept "appt-1") (sample_db "Pending")).1
     !! "appt-1" = Some (rao_request "Pending")) ∧
  (∃ p id d st,
     load_profile "uid-rao" None (sample_db "Pending") = Some p ∧
     appointments (sample_db "Pending") !! id = Some d ∧
     d !! "doctor_place_id" = Some (place_id p) ∧
     shows_buttons d ∧
     ((Accept "appt-1" = Accept id ∧ st = "Accepted") ∨
      (Accept "appt-1" = Decline id ∧ st = "Declined")) ∧
     doctors (sample_db "Accepted") = doctors (sample_db "Pending") ∧
     appointments (sample_db "Accepted") !! id = Some (<["status" := st]> d) ∧
     (<["status" := st]> d) !! "status" = Some st ∧
     (∀ k, k ≠ "status" → (<["status" := st]> d) !! k = d !! k) ∧
     (∀ id', id' ≠ id →
        appointments (sample_db "Accepted") !! id'
        = appointments (sample_db "Pending") !! id')).
Proof.
  split.
  - apply (proj1 transition_owner_and_frame "uid-sen" None (Accept "appt-1")
             (sample_db "Pending") sen "appt-1" (rao_request "Pending"));
      [reflexivity | reflexivity | discriminate].
  - apply (proj2 transition_owner_and_frame "uid-rao" None (Accept "appt-1")
             (sample_db "Pending") (sample_db "Accepted")).
    reflexivity.
Defined.

(** C3, as stated, fails: a doctor of another place clicks Accept on a
    record that is not the doctor's.  The record is not in the doctor's
    list, so the run ends normally: no error is raised or shown. *)
Lemma foreign_transition_raises_nothing :
  place_id sen ≠ "place-rao" ∧
  rao_request "Pending" !! "doctor_place_id" = Some "place-rao" ∧
  doctor_dashboard "uid-sen" None (Accept "appt-1") (sample_db "Pending")
  = (sample_db "Pending", Done).
Proof. repeat split; [discriminate | vm_compute; reflexivity..]. Qed.

(** ** Booking form *)

(** C4 (amended): the submit handler of the booking form writes, for every
    non-empty patient name and every date the date widget hands over (the
    widget only offers dates from today on), one record under the generated
    id whose status is "Pending" and whose other fields are the form's
    values, provided the store accepts the write; when the id is new the
    store grows by exactly that record.  When the store's write raises, no
    record is written: the error message is kept for the next run and the
    script reruns.  With an empty patient name the handler only shows the
    validation message "Please enter your name." and the store and session
    stay as they were. *)
Theorem book_submit_pending_or_rejected
    (u : user) (name doctor_place_id patient_name_input appt_date appt_time
     new_id : string) (c : collection) (ss : session) :
  (patient_name_input ≠ "" →
   let r := book_submit u name doctor_place_id patient_name_input appt_date
              appt_time new_id None c ss in
   let data := appointment_data u patient_name_input name doctor_place_id
                 appt_date appt_time in
   r.2 = Rerun ∧
   r.1.1 = <[new_id := data]> c ∧
   r.1.1 !! new_id = Some data ∧
   data !! "status" = Some "Pending" ∧
   data !! "patient_name" = Some patient_name_input ∧
   data !! "patient_id" = Some (localId u) ∧
   data !! "patient_email" = Some (email u) ∧
   data !! "doctor_name" = Some name ∧
   data !! "doctor_place_id" = Some doctor_place_id ∧
   data !! "appointment_date" = Some appt_date ∧
   data !! "appointment_time" = Some appt_time ∧
   (∀ id, id ≠ new_id → r.1.1 !! id = c !! id) ∧
   (c !! new_id = None → size r.1.1 = S (size c))) ∧
  (patient_name_input ≠ "" →
   ∀ e, book_submit u name doctor_place_id patient_name_input appt_date
          appt_time new_id (Some e) c ss
        = (c, Session (prediction ss) (specialist ss) (doctors_list ss)
                (map_data_list ss)
                (Some ("❌ Error: Could not book appointment. " +:+ e)),
           Rerun)) ∧
  (∀ set_error,
     book_submit u name doctor_place_id "" appt_date appt_time new_id set_error
       c ss
     = (c, ss, Warned "Please enter your name.")).
Proof.
  split_and!; [| |done].
  - intros Hne r data.
    assert (r = (<[new_id := data]> c,
                 Session (prediction ss) (specialist ss) (doctors_list ss)
                   (map_data_list ss)
                   (Some ("✅ Success! Your appointment request for " +:+ name
                          +:+ " has been sent.")),
                 Rerun)) as ->.
    { subst r data. unfold book_submit, set_doc.
      by rewrite bool_decide_eq_false_2 by done. }
    simpl. split_and!; try done.
    + by rewrite lookup_insert_eq.
    + intros id Hid. by rewrite lookup_insert_ne.
    + intros Hnew. by apply map_size_insert_None.
  - intros Hne e. unfold book_submit.
    by rewrite bool_decide_eq_false_2 by done.
Qed.

Lemma book_submit_pending_or_rejected_witness :
  (book_submit asha "Rao Skin Clinic" "place-rao" "Asha Verma" "2025-03-01"
     "10:30:00" "appt-1" None (<["appt-2" := sen_request]> ∅) fresh_session).1.1
  = appointments (sample_db "Pending").
Proof.
  destruct (book_submit_pending_or_rejected asha "Rao Skin Clinic" "place-rao"
              "Asha Verma" "2025-03-01" "10:30:00" "appt-1"
              (<["appt-2" := sen_request]> ∅) fresh_session) as [H _].
  destruct H as (_ & H & _); [discriminate|].
  rewrite H. vm_compute. reflexivity.
Defined.

(** C4, as stated, fails: a call with a non-empty patient name and a date
    the widget offered does not write a record when the store's write
    raises.  The store is left as it was, the error message is stored, and
    the script reruns. *)
Lemma booking_store_failure_writes_nothing :
  "Asha Verma" ≠ "" ∧
  book_submit asha "Rao Skin Clinic" "place-rao" "Asha Verma" "2025-03-01"
    "10:30:00" "appt-1" (Some "503 Service Unavailable")
    (<["appt-2" := sen_request]> ∅) fresh_session
  = (<["appt-2" := sen_request]> ∅,
     Session None None [] []
       (Some "❌ Error: Could not book appointment. 503 Service Unavailable"),
     Rerun) ∧
  (<["appt-2" := sen_request]> ∅ : gmap string (gmap string string)) !! "appt-1"
  = None.
Proof. split_and!; [discriminate | vm_compute; reflexivity | reflexivity]. Qed.

(** ** Provider search and enrichment *)

Section Enrichment.

Variable place : string → exn + place_result.

Lemma enrich_one_fields (d : doctor) : fields (enrich_one place d).1 = fields d.
Proof.
  unfold enrich_one.
  destruct (fields d !! "place_id"); [|done].
  destruct (place _) as [e|pd]; [done|].
  destruct (d_geometry _) as [g|]; [|done].
  destruct (location g) as [loc|]; [|done].
  by destruct (lat loc), (lng loc).
Qed.

(** The loop adds details and never adds, drops or reorders candidates. *)
Lemma enrich_fields (ds : list doctor) (acc : list map_point) :
  fields <$> (enrich place ds acc).1 = fields <$> ds.
Proof.
  revert acc. induction ds as [|d ds IH]; intros acc; [done|].
  pose proof (enrich_one_fields d) as Hd.
  cbn [enrich]. rewrite fmap_cons.
  destruct (enrich_one place d) as [d' [e|pt]]; cbn [fst] in *.
  - by rewrite fmap_cons, Hd.
  - specialize (IH (acc ++ option_list pt)).
    destruct (enrich place ds (acc ++ option_list pt)) as [rest' r].
    cbn [fst] in *. by rewrite fmap_cons, Hd, IH.
Qed.

Lemma enrich_length (ds : list doctor) (acc : list map_point) :
  length (enrich place ds acc).1 = length ds.
Proof.
  rewrite <- (length_fmap fields), enrich_fields. apply length_fmap.
Qed.

(** The loop over a list in two parts: the second part is reached only when
    the first raised nothing. *)
Lemma enrich_app (l1 l2 : list doctor) (acc : list map_point) :
  enrich place (l1 ++ l2) acc =
    match enrich place l1 acc with
    | (l1', inl e) => (l1' ++ l2, inl e)
    | (l1', inr acc') =>
        let '(l2', r) := enrich place l2 acc' in (l1' ++ l2', r)
    end.
Proof.
  revert acc. induction l1 as [|d l1 IH]; intros acc; simpl.
  - by destruct (enrich place l2 acc).
  - destruct (enrich_one place d) as [d' [e|pt]]; [done|].
    rewrite IH.
    destruct (enrich place l1 (acc ++ option_list pt)) as [l1' [e|acc']]; [done|].
    by destruct (enrich place l2 acc').
Qed.

Lemma enrich_one_raises (d : doctor) (place_id : string) (e : exn) :
  fields d !! "place_id" = Some place_id → place place_id = inl e →
  enrich_one place d = (d, inl e).
Proof. intros H1 H2. unfold enrich_one. by rewrite H1, H2. Qed.

Lemma enrich_one_no_result (d : doctor) (place_id : string) :
  fields d !! "place_id" = Some place_id →
  place place_id = inr (PlaceResult None) →
  enrich_one place d = (Doctor (fields d) (Some no_details), inr None).
Proof. intros H1 H2. unfold enrich_one. by rewrite H1, H2. Qed.

End Enrichment.

Lemma truncate_spec (r : places_result) :
  (length (truncate r) ≤ 5)%nat ∧
  truncate r `prefix_of` default [] (results r) ∧
  truncate r = take 5 (default [] (results r)).
Proof.
  unfold truncate. split_and!; [|apply prefix_take|done].
  rewrite length_take. lia.
Qed.

(** C6: the candidate list of a search is the first five geo-search results
    at most, in the order the Places service returned them: the list the
    handler keeps has the same entries as that prefix (enrichment only adds
    the details key), whatever the detail lookups do.  When the service
    returns no results, the handler keeps the empty list and ends normally,
    with no error. *)
Theorem search_keeps_first_five
    (symptoms : list string) (predict : list (string * Z) → exn + string)
    (places : string → exn + places_result) (place : string → exn + place_result)
    (user_symptoms : list string) (user_location : string) (ss : session)
    (p : string) (r : places_result) :
  user_symptoms ≠ [] → user_location ≠ "" →
  predict (model_input symptoms user_symptoms) = inr p →
  places (resolve p +:+ " in " +:+ user_location) = inr r →
  let run := find_doctor symptoms predict places place user_symptoms
               user_location ss in
  let found := default [] (results r) in
  (length (doctors_list run.1) ≤ 5)%nat ∧
  length (doctors_list run.1) = length found `min` 5 ∧
  fields <$> doctors_list run.1 = fields <$> take 5 found ∧
  take 5 found `prefix_of` found ∧
  (found = [] →
   run = (Session (Some p) (Some (resolve p)) [] [] (booking_confirmation ss),
          Done)).
Proof.
  intros Hs Hl Hp Hr run found.
  assert (doctors_list run.1 = (enrich place (truncate r) []).1) as Hdl.
  { subst run. unfold find_doctor.
    rewrite (bool_decide_eq_false_2 (user_symptoms = [])) by done.
    rewrite (bool_decide_eq_false_2 (user_location = "")) by done.
    simpl. rewrite Hp, Hr.
    by destruct (enrich place (truncate r) []) as [dl [e|pts]]. }
  assert (length (doctors_list run.1) = length found `min` 5) as Hlen.
  { rewrite Hdl, enrich_length. unfold truncate. rewrite length_take.
    fold found. lia. }
  split_and!.
  - lia.
  - done.
  - rewrite Hdl, enrich_fields. done.
  - apply prefix_take.
  - intros Hnone. subst run. unfold find_doctor.
    rewrite (bool_decide_eq_false_2 (user_symptoms = [])) by done.
    rewrite (bool_decide_eq_false_2 (user_location = "")) by done.
    simpl. rewrite Hp, Hr. unfold truncate. fold found. by rewrite Hnone.
Qed.

Lemma search_keeps_first_five_witness :
  let run := find_doctor sample_symptoms sample_predict sample_places
               sample_place ["itching"; "skin_rash"] "Lucknow" fresh_session in
  (length (doctors_list run.1) ≤ 5)%nat ∧
  length (doctors_list run.1) = length sample_results `min` 5 ∧
  fields <$> doctors_list run.1 = fields <$> take 5 sample_results ∧
  take 5 sample_results `prefix_of` sample_results ∧
  (sample_results = [] →
   run = (Session (Some "Fungal infection") (Some (resolve "Fungal infection"))
            [] [] None, Done)).
Proof.
  apply (search_keeps_first_five sample_symptoms sample_predict sample_places
           sample_place ["itching"; "skin_rash"] "Lucknow" fresh_session
           "Fungal infection" (PlacesResult (Some sample_results)));
    [discriminate | discriminate | reflexivity | vm_compute; reflexivity].
Defined.

Example search_nothing_found :
  find_doctor sample_symptoms sample_predict sample_places sample_place
    ["itching"] "Kanpur" fresh_session
  = (Session (Some "Fungal infection") (Some "Dermatologist") [] [] None, Done).
Proof. vm_compute. reflexivity. Qed.

(** C7 (amended): a detail lookup that raises stops the enrichment loop.
    The candidates before the failing one keep the details they got; the
    failing candidate and all candidates after it stay in the list with only
    the fields the search call provided (the later ones are not looked up);
    no map data is kept and the handler reports the error.  A lookup that
    answers without a result does not stop the loop: that candidate gets
    empty details and the loop goes on with the candidates after it. *)
Theorem detail_lookup_failure
    (symptoms : list string) (predict : list (string * Z) → exn + string)
    (places : string → exn + places_result) (place : string → exn + place_result)
    (user_symptoms : list string) (user_location : string) (ss : session)
    (p : string) (r : places_result)
    (before before' after : list doctor) (d : doctor) (pts : list map_point)
    (place_id : string) :
  user_symptoms ≠ [] → user_location ≠ "" →
  predict (model_input symptoms user_symptoms) = inr p →
  places (resolve p +:+ " in " +:+ user_location) = inr r →
  truncate r = before ++ d :: after →
  enrich place before [] = (before', inr pts) →
  fields d !! "place_id" = Some place_id →
  let run := find_doctor symptoms predict places place user_symptoms
               user_location ss in
  (∀ e, place place_id = inl e →
     run = (Session (Some p) (Some (resolve p)) (before' ++ d :: after) []
              (booking_confirmation ss), Raised e)) ∧
  (place place_id = inr (PlaceResult None) →
     run = match enrich place after pts with
           | (after', inl e) =>
               (Session (Some p) (Some (resolve p))
                  (before' ++ Doctor (fields d) (Some no_details) :: after') []
                  (booking_confirmation ss), Raised e)
           | (after', inr pts') =>
               (Session (Some p) (Some (resolve p))
                  (before' ++ Doctor (fields d) (Some no_details) :: after') pts'
                  (booking_confirmation ss), Done)
           end).
Proof.
  intros Hs Hl Hp Hr Htr Hbefore Hpid run.
  assert (run = match enrich place (before ++ d :: after) [] with
                | (dl, inl e) =>
                    (Session (Some p) (Some (resolve p)) dl []
                       (booking_confirmation ss), Raised e)
                | (dl, inr pts') =>
                    (Session (Some p) (Some (resolve p)) dl pts'
                       (booking_confirmation ss), Done)
                end) as ->.
  { subst run. unfold find_doctor.
    rewrite (bool_decide_eq_false_2 (user_symptoms = [])) by done.
    rewrite (bool_decide_eq_false_2 (user_location = "")) by done.
    simpl. by rewrite Hp, Hr, Htr. }
  rewrite enrich_app, Hbefore. cbn [enrich]. split.
  - intros e He. by rewrite (enrich_one_raises place d place_id e).
  - intros Hnone. rewrite (enrich_one_no_result place d place_id) by done.
    simpl. rewrite app_nil_r.
    by destruct (enrich place after pts) as [after' [e|pts']].
Qed.

Lemma detail_lookup_failure_witness :
  find_doctor sample_symptoms sample_predict sample_places sample_place
    ["itching"; "skin_rash"] "Lucknow" fresh_session
  = (Session (Some "Fungal infection") (Some "Dermatologist")
       ([Doctor (fields (candidate "place-1" "Derma One"))
           (Some (sample_details "place-1"))]
        ++ candidate "place-2" "Derma Two"
           :: [candidate "place-3" "Derma Three";
               candidate "place-4" "Derma Four";
               candidate "place-5" "Derma Five"])
       [] None,
     Raised (External "ApiError")).
Proof.
  apply (detail_lookup_failure sample_symptoms sample_predict sample_places
           sample_place ["itching"; "skin_rash"] "Lucknow" fresh_session
           "Fungal infection" (PlacesResult (Some sample_results))
           [candidate "place-1" "Derma One"]
           [Doctor (fields (candidate "place-1" "Derma One"))
              (Some (sample_details "place-1"))]
           [candidate "place-3" "Derma Three"; candidate "place-4" "Derma Four";
            candidate "place-5" "Derma Five"]
           (candidate "place-2" "Derma Two")
           [MapPoint "place-1" "26.85" "80.95"] "place-2");
    [discriminate | discriminate | reflexivity | vm_compute; reflexivity
    | reflexivity | vm_compute; reflexivity | reflexivity | reflexivity].
Defined.

(** C7, as stated, fails: the lookup of the second of five candidates
    raises.  The later candidates, whose own lookups would have answered,
    are left without details, and the run ends in the error. *)
Lemma failed_lookup_leaves_rest_unenriched :
  let run := find_doctor sample_symptoms sample_predict sample_places
               sample_place ["itching"; "skin_rash"] "Lucknow" fresh_session in
  run.2 = Raised (External "ApiError") ∧
  doctor_details <$> doctors_list run.1
  = [Some (sample_details "place-1"); None; None; None; None] ∧
  fields <$> doctors_list run.1 = fields <$> take 5 sample_results ∧
  sample_place "place-3" = inr (PlaceResult (Some (sample_details "place-3"))) ∧
  map_data_list run.1 = [].
Proof. repeat split; vm_compute; reflexivity. Qed.

(** ** Rejected and ignored symptom input *)

(** C9 (amended): the handler rejects an empty symptom list with the warning
    "Please select at least one symptom or location." before any vector is
    built, leaving the session as it was.  Identifiers that are not in the
    catalog are not rejected: they are skipped, so the dict and the vector
    handed to the classifier are those of the reported list without them. *)
Theorem empty_rejected_unknown_ignored :
  (∀ symptoms predict places place user_location ss,
     find_doctor symptoms predict places place [] user_location ss
     = (ss, Warned "Please select at least one symptom or location.")) ∧
  (∀ symptoms user_symptoms,
     model_input symptoms user_symptoms
     = model_input symptoms (filter (λ s, s ∈ symptoms) user_symptoms)) ∧
  (∀ symptoms user_symptoms,
     vectorize symptoms user_symptoms
     = vectorize symptoms (filter (λ s, s ∈ symptoms) user_symptoms)).
Proof.
  split_and!.
  - done.
  - apply model_input_ignores_unknown.
  - intros symptoms user_symptoms. unfold vectorize.
    by rewrite model_input_ignores_unknown.
Qed.

(** C9, as stated, fails: a reported list with an identifier outside the
    catalog is not rejected.  The vector is built with the unknown
    identifier skipped and the run goes on to the prediction and ends
    normally. *)
Lemma unknown_symptom_not_rejected :
  ("not_a_symptom" ∉ sample_symptoms) ∧
  vectorize sample_symptoms ["itching"; "not_a_symptom"] = [1; 0; 0; 0]%Z ∧
  find_doctor sample_symptoms sample_predict sample_places sample_place
    ["itching"; "not_a_symptom"] "Kanpur" fresh_session
  = (Session (Some "Fungal infection") (Some "Dermatologist") [] [] None, Done).
Proof.
  split_and!.
  - apply (bool_decide_unpack _). vm_compute. exact I.
  - vm_compute. reflexivity.
  - vm_compute. reflexivity.
Qed.

(** * Further properties of the script *)

(** ** The feature dict for any catalog *)

(** The all-zero dict has one entry per distinct name. *)
Lemma zero_input_shape (l : list string) :
  ∃ K, NoDup K ∧ (∀ x, x ∈ K ↔ x ∈ l) ∧ zero_input l = (λ s, (s, 0%Z)) <$> K.
Proof.
  induction l as [|x l (K & HK & Hel & Hz)] using rev_ind.
  - exists []. split_and!; [constructor|done|done].
  - rewrite zero_input_snoc, Hz. destruct (decide (x ∈ K)) as [Hx|Hx].
    + exists K. split_and!; [done| |].
      * intros y. rewrite elem_of_app, list_elem_of_singleton, <- Hel.
        split; [tauto|]. by intros [?| ->].
      * rewrite od_set_tabulated by done.
        apply list_fmap_ext. intros i y _. simpl. by case_decide.
    + exists (K ++ [x]). split_and!.
      * apply NoDup_app. split_and!; [done| |apply NoDup_singleton].
        intros y Hy ->%list_elem_of_singleton. done.
      * intros y. by rewrite !elem_of_app, Hel.
      * rewrite od_set_fresh, fmap_app; [done|].
        by rewrite <- list_fmap_compose, list_fmap_id.
Qed.

Lemma model_input_shape (l us : list string) :
  ∃ K, NoDup K ∧ (∀ x, x ∈ K ↔ x ∈ l) ∧
       ∀ us', model_input l us'
              = (λ s, (s, if bool_decide (s ∈ us') then 1%Z else 0%Z)) <$> K.
Proof.
  destruct (zero_input_shape l) as (K & HK & Hel & Hz).
  exists K. split_and!; [done..|].
  intros us'. unfold model_input. rewrite Hz. by apply mark_tabulated.
Qed.

(** X1: whatever the catalog and whatever is reported, the dict handed to
    the classifier has one column per distinct catalog name (repeated names
    collapse into one), every value is 0 or 1, and the value of a column is
    1 exactly when its name was reported. *)
Theorem model_input_any_catalog (symptoms user_symptoms : list string) :
  NoDup (model_input symptoms user_symptoms).*1 ∧
  (∀ s, s ∈ (model_input symptoms user_symptoms).*1 ↔ s ∈ symptoms) ∧
  (∀ s v, (s, v) ∈ model_input symptoms user_symptoms →
          v = if bool_decide (s ∈ user_symptoms) then 1%Z else 0%Z) ∧
  Forall (λ v, v = 0%Z ∨ v = 1%Z) (vectorize symptoms user_symptoms) ∧
  length (vectorize symptoms user_symptoms)
  = size (list_to_set symptoms : gset string).
Proof.
  destruct (model_input_shape symptoms user_symptoms) as (K & HK & Hel & Hm).
  unfold vectorize. rewrite (Hm user_symptoms).
  rewrite <- !list_fmap_compose.
  split_and!.
  - by rewrite list_fmap_id.
  - intros s. by rewrite list_fmap_id.
  - intros s v (s' & [= -> ->] & _)%list_elem_of_fmap. done.
  - apply Forall_fmap, Forall_forall. intros s _. simpl. case_bool_decide; auto.
  - rewrite length_fmap, <- (size_list_to_set (C := gset string) K) by done.
    f_equal. apply set_eq. intros x. by rewrite !elem_of_list_to_set.
Qed.

(** X2: the dict depends only on which names were reported, not on their
    order or on repetitions. *)
Theorem model_input_set_dependent (symptoms us us' : list string) :
  (∀ x, x ∈ us ↔ x ∈ us') →
  model_input symptoms us = model_input symptoms us' ∧
  vectorize symptoms us = vectorize symptoms us'.
Proof.
  intros Heq.
  assert (model_input symptoms us = model_input symptoms us') as H.
  { destruct (model_input_shape symptoms us) as (K & _ & _ & Hm).
    rewrite !Hm. apply list_fmap_ext. intros i s _. simpl.
    by rewrite (bool_decide_ext _ _ (Heq s)). }
  split; [done|]. unfold vectorize. by rewrite H.
Qed.

Lemma model_input_set_dependent_witness :
  model_input sample_symptoms ["chills"; "itching"; "chills"]
  = model_input sample_symptoms ["itching"; "chills"] ∧
  vectorize sample_symptoms ["chills"; "itching"; "chills"]
  = vectorize sample_symptoms ["itching"; "chills"].
Proof.
  apply (model_input_set_dependent sample_symptoms
           ["chills"; "itching"; "chills"] ["itching"; "chills"]).
  intros x. rewrite !elem_of_cons. tauto.
Defined.

(** X3: the label column and pandas' unnamed columns never become feature
    columns: the columns of the dict built over [get_symptoms_list] are the
    other column names of the file, whatever the user reports. *)
Theorem catalog_columns (all_cols user_symptoms : list string) (s : string) :
  s ∈ (model_input (get_symptoms_list all_cols) user_symptoms).*1 ↔
  s ∈ all_cols ∧ s ≠ "prognosis" ∧ String.prefix "Unnamed:" s = false.
Proof.
  destruct (model_input_shape (get_symptoms_list all_cols) user_symptoms)
    as (K & _ & Hel & Hm).
  rewrite (Hm user_symptoms), <- list_fmap_compose, list_fmap_id, Hel.
  unfold get_symptoms_list. rewrite list_elem_of_filter. tauto.
Qed.

(** ** The range of the resolver *)

(** X4: whatever label the classifier returns, the specialty searched for is
    one of seven: the six specialties of the table or the fallback. *)
Theorem resolve_range (condition : string) : resolve condition ∈ specialties.
Proof.
  unfold resolve. destruct (specialty_map !! condition) as [v|] eqn:E; simpl.
  - apply specialty_map_lookup in E. unfold specialty_entries in E.
    repeat (apply elem_of_cons in E as [E|E];
            [injection E as _ ->; apply (bool_decide_unpack _); vm_compute; exact I|]).
    by apply elem_of_nil in E.
  - apply (bool_decide_unpack _). vm_compute. exact I.
Qed.

(** ** The enrichment loop when nothing raises *)

Lemma length_omap_le {A B} (f : A → option B) (l : list A) :
  (length (omap f l) ≤ length l)%nat.
Proof.
  induction l as [|x l IH]; [done|].
  change (omap f (x :: l))
    with (match f x with Some y => y :: omap f l | None => omap f l end).
  destruct (f x); simpl length; lia.
Qed.

Lemma enrich_one_success (place : string → exn + place_result) (d d' : doctor)
    (pt : option map_point) :
  enrich_one place d = (d', inr pt) →
  is_Some (doctor_details d') ∧ pt = map_point_of d'.
Proof.
  unfold enrich_one, map_point_of.
  destruct (fields d !! "place_id"); [|discriminate].
  destruct (place _) as [e|pd]; [discriminate|].
  destruct (d_geometry (default no_details (result pd))) as [g|] eqn:Eg.
  2:{ intros [= <- <-]. simpl. rewrite Eg. eauto. }
  destruct (location g) as [loc|] eqn:El; [|discriminate].
  destruct (lat loc) as [la|] eqn:Ela, (lng loc) as [lo|] eqn:Elo; try discriminate.
  intros [= <- <-]. simpl. rewrite Eg. simpl. rewrite El. simpl.
  rewrite Ela, Elo. eauto.
Qed.

(** X5: when the enrichment loop ends without an exception, every candidate
    of the list carries details, and the map data is what was there before
    followed by the markers of exactly those candidates whose details hold a
    complete coordinate, in list order; candidates without one stay in the
    list and add no marker. *)
Theorem enrich_success_map_data (place : string → exn + place_result)
    (ds ds' : list doctor) (acc pts : list map_point) :
  enrich place ds acc = (ds', inr pts) →
  Forall (λ d, is_Some (doctor_details d)) ds' ∧
  pts = acc ++ omap map_point_of ds' ∧
  fields <$> ds' = fields <$> ds ∧
  (length pts ≤ length acc + length ds)%nat.
Proof.
  intros H.
  assert (Forall (λ d, is_Some (doctor_details d)) ds' ∧
          pts = acc ++ omap map_point_of ds') as [HF Hpts].
  { revert acc ds' pts H. induction ds as [|d ds IH]; intros acc ds' pts; simpl.
    - intros [= <- <-]. by rewrite app_nil_r.
    - destruct (enrich_one place d) as [d1 [e|pt]] eqn:E1; [discriminate|].
      destruct (enrich place ds (acc ++ option_list pt)) as [rest' r] eqn:E2.
      intros [= <- ->].
      destruct (enrich_one_success _ _ _ _ E1) as [Hd1 ->].
      destruct (IH _ _ _ E2) as [HF ->].
      split; [by constructor|].
      rewrite <- app_assoc. simpl. by destruct (map_point_of d1). }
  assert (fields <$> ds' = fields <$> ds) as Hf.
  { pose proof (enrich_fields place ds acc) as Hf. by rewrite H in Hf. }
  split_and!; try done.
  rewrite Hpts, length_app.
  pose proof (length_omap_le map_point_of ds').
  assert (length ds' = length ds) by (by rewrite <- (length_fmap fields), Hf, length_fmap).
  lia.
Qed.

Lemma enrich_success_map_data_witness :
  let ds := [candidate "place-1" "Derma One"; candidate "place-3" "Derma Three"] in
  let ds' := [Doctor (fields (candidate "place-1" "Derma One"))
                (Some (sample_details "place-1"));
              Doctor (fields (candidate "place-3" "Derma Three"))
                (Some (sample_details "place-3"))] in
  let pts := [MapPoint "place-1" "26.85" "80.95"; MapPoint "place-3" "26.85" "80.95"] in
  Forall (λ d, is_Some (doctor_details d)) ds' ∧
  pts = [] ++ omap map_point_of ds' ∧
  fields <$> ds' = fields <$> ds ∧
  (length pts ≤ length (@nil map_point) + length ds)%nat.
Proof.
  apply (enrich_success_map_data sample_place).
  vm_compute. reflexivity.
Defined.

(** ** The "Find a Doctor" run as a whole *)

(** X6: the run is refused with the warning exactly when no symptom was
    selected or the location is empty, and a refused run leaves the session,
    with the results of an earlier search, untouched. *)
Theorem find_doctor_refused_iff
    (symptoms : list string) (predict : list (string * Z) → exn + string)
    (places : string → exn + places_result) (place : string → exn + place_result)
    (user_symptoms : list string) (user_location : string) (ss : session) :
  let run := find_doctor symptoms predict places place user_symptoms
               user_location ss in
  ((∃ msg, run.2 = Warned msg) ↔ user_symptoms = [] ∨ user_location = "") ∧
  (user_symptoms = [] ∨ user_location = "" →
   run = (ss, Warned "Please select at least one symptom or location.")).
Proof.
  intros run. subst run. unfold find_doctor.
  destruct (decide (user_symptoms = [])) as [Hs|Hs].
  { rewrite (bool_decide_eq_true_2 _ Hs). simpl. split; [|done].
    split; [auto|]. eauto. }
  rewrite (bool_decide_eq_false_2 _ Hs).
  destruct (decide (user_location = "")) as [Hl|Hl].
  { rewrite (bool_decide_eq_true_2 _ Hl). simpl. split; [|done].
    split; [auto|]. eauto. }
  rewrite (bool_decide_eq_false_2 _ Hl). simpl.
  split; [|by intros [?|?]].
  split; [|by intros [?|?]].
  intros [msg Hmsg]. exfalso.
  destruct (predict _) as [e|p]; [discriminate|].
  destruct (places _) as [e|r]; [discriminate|].
  by destruct (enrich place (truncate r) []) as [dl [e|pts]].
Qed.

(** The handler (app.py 348-408) on the session it is given: it does not
    touch the flash message itself. *)
Lemma find_doctor_handler_facts
    (symptoms : list string) (predict : list (string * Z) → exn + string)
    (places : string → exn + places_result) (place : string → exn + place_result)
    (user_symptoms : list string) (user_location : string) (ss : session) :
  user_symptoms ≠ [] → user_location ≠ "" →
  let run := find_doctor symptoms predict places place user_symptoms
               user_location ss in
  run = find_doctor symptoms predict places place user_symptoms user_location
          (Session None None [] [] (booking_confirmation ss)) ∧
  booking_confirmation run.1 = booking_confirmation ss ∧
  specialist run.1 = resolve <$> prediction run.1 ∧
  (length (doctors_list run.1) ≤ 5)%nat ∧
  (length (map_data_list run.1) ≤ length (doctors_list run.1))%nat ∧
  (run.2 ≠ Done → map_data_list run.1 = []) ∧
  (run.2 = Done →
   is_Some (prediction run.1) ∧
   Forall (λ d, is_Some (doctor_details d)) (doctors_list run.1) ∧
   map_data_list run.1 = omap map_point_of (doctors_list run.1)).
Proof.
  intros Hs Hl run. subst run. unfold find_doctor.
  rewrite (bool_decide_eq_false_2 _ Hs), (bool_decide_eq_false_2 _ Hl). simpl.
  destruct (predict _) as [e|p].
  { simpl. split_and!; try done; lia. }
  destruct (places _) as [e|r].
  { simpl. split_and!; try done; lia. }
  pose proof (enrich_length place (truncate r) []) as Hlen.
  assert (length (truncate r) ≤ 5)%nat as H5.
  { unfold truncate. rewrite length_take. lia. }
  destruct (enrich place (truncate r) []) as [dl [e|pts]] eqn:E; simpl in *.
  { split_and!; try done; lia. }
  destruct (enrich_success_map_data _ _ _ _ _ E) as (HF & -> & _ & Hle).
  simpl in *. split_and!; try done; lia.
Qed.

(** Showing the flash message clears it, unless it is the empty text. *)
Lemma show_confirmation_clears (ss : session) :
  booking_confirmation ss ≠ Some "" →
  (show_confirmation ss).1 = booking_confirmation ss ∧
  booking_confirmation (show_confirmation ss).2 = None.
Proof.
  unfold show_confirmation. destruct (booking_confirmation ss) as [msg|] eqn:E.
  - intros Hne. rewrite bool_decide_eq_false_2 by congruence. done.
  - done.
Qed.

(** X7: a run of the recommendations column whose button click is not
    refused shows a pending flash message and clears it, replaces the
    earlier results wholesale (what it leaves does not depend on them), and
    leaves a consistent session: the specialist is the resolved prediction,
    there are at most five candidates and no more markers than candidates;
    markers are kept only by a run that ends normally, and then every
    candidate carries details and the markers are those of the listed
    candidates. *)
Theorem find_doctor_session_invariant
    (symptoms : list string) (predict : list (string * Z) → exn + string)
    (places : string → exn + places_result) (place : string → exn + place_result)
    (user_symptoms : list string) (user_location : string) (ss : session) :
  user_symptoms ≠ [] → user_location ≠ "" →
  let run := find_doctor_tab symptoms predict places place true user_symptoms
               user_location ss in
  run.1.1 = (show_confirmation ss).1 ∧
  (booking_confirmation ss ≠ Some "" →
   run.1.1 = booking_confirmation ss ∧ booking_confirmation run.1.2 = None) ∧
  (run.1.2, run.2)
  = find_doctor symptoms predict places place user_symptoms user_location
      (Session None None [] []
         (booking_confirmation (show_confirmation ss).2)) ∧
  specialist run.1.2 = resolve <$> prediction run.1.2 ∧
  (length (doctors_list run.1.2) ≤ 5)%nat ∧
  (length (map_data_list run.1.2) ≤ length (doctors_list run.1.2))%nat ∧
  (run.2 ≠ Done → map_data_list run.1.2 = []) ∧
  (run.2 = Done →
   is_Some (prediction run.1.2) ∧
   Forall (λ d, is_Some (doctor_details d)) (doctors_list run.1.2) ∧
   map_data_list run.1.2 = omap map_point_of (doctors_list run.1.2)).
Proof.
  intros Hs Hl run. subst run. unfold find_doctor_tab.
  pose proof (show_confirmation_clears ss) as Hclear.
  destruct (show_confirmation ss) as [shown ss1]. simpl in Hclear.
  destruct (find_doctor_handler_facts symptoms predict places place
              user_symptoms user_location ss1 Hs Hl)
    as (Hwhole & Hconf & Hspec & H5 & Hmap & Hfail & Hdone).
  destruct (find_doctor symptoms predict places place user_symptoms
              user_location ss1) as [ss2 o] eqn:E.
  simpl in *. split_and!; try done.
  intros Hne. destruct (Hclear Hne) as [-> Hnone]. split; [done|].
  by rewrite Hconf.
Qed.

Lemma find_doctor_session_invariant_witness :
  let ss := Session (Some "Migraine") (Some "Neurologist")
              [candidate "old" "Old result"] [] (Some "sent") in
  let run := find_doctor_tab sample_symptoms sample_predict sample_places
               sample_place true ["itching"] "Lucknow" ss in
  run.1.1 = Some "sent" ∧
  booking_confirmation run.1.2 = None ∧
  specialist run.1.2 = resolve <$> prediction run.1.2 ∧
  (length (doctors_list run.1.2) ≤ 5)%nat.
Proof.
  intros ss run.
  destruct (find_doctor_session_invariant sample_symptoms sample_predict
              sample_places sample_place ["itching"] "Lucknow" ss)
    as (_ & H1 & _ & H2 & H3 & _); [discriminate | discriminate |].
  destruct H1 as [H1a H1b]; [discriminate|].
  split_and!; [exact H1a | exact H1b | exact H2 | exact H3].
Defined.

(** ** Result cards *)

Lemma replace_space_no_space (s : string) :
  " "%char ∉ String.list_ascii_of_string (replace_space s).
Proof.
  induction s as [|c s IH]; simpl.
  - apply not_elem_of_nil.
  - apply not_elem_of_cons. split; [|done].
    destruct (Ascii.eqb c " ") eqn:E; [discriminate|].
    intros <-. by rewrite Ascii.eqb_refl in E.
Qed.

(** X8: the name put into the map link of a card never contains a space:
    every space of it is turned into a plus, nothing else is changed, and
    the length is kept. *)
Theorem map_link_name_has_no_space (s : string) :
  (" "%char ∉ String.list_ascii_of_string (replace_space s)) ∧
  String.length (replace_space s) = String.length s ∧
  (∀ i c, String.get i s = Some c →
          String.get i (replace_space s)
          = Some (if Ascii.eqb c " " then "+"%char else c)).
Proof.
  split_and!.
  - apply replace_space_no_space.
  - induction s as [|c s IH]; simpl; [done|]. by rewrite IH.
  - induction s as [|c s IH]; intros i c'; simpl; [discriminate|].
    destruct i as [|i]; [by intros [= ->]|]. apply IH.
Qed.

(** X9: a card says "Open now" only for details whose opening hours state
    [open_now] as true, and "Status unknown" exactly when there are no
    details or no opening hours; opening hours without [open_now] count as
    closed. *)
Theorem card_open_label (d : doctor) (k : card) :
  candidate_card d = inr k →
  let hours := doctor_details d ≫= d_opening_hours in
  (card_open_now k = "🟢 Open now" ↔ hours ≫= open_now = Some true) ∧
  (card_open_now k = "Status unknown" ↔ hours = None) ∧
  (card_open_now k = "🔴 Closed" ↔
   ∃ oh, hours = Some oh ∧ open_now oh ≠ Some true).
Proof.
  unfold candidate_card.
  destruct (fields d !! "place_id") as [pid|]; [|discriminate].
  intros [= <-]. simpl.
  destruct (doctor_details d) as [det|]; simpl.
  2:{ split_and!; split; try done. by intros (? & ? & _). }
  destruct (d_opening_hours det) as [[[[]|]]|]; simpl;
    split_and!; split; try done; try (by intros (? & [= <-] & ?)); eauto.
Qed.

Lemma card_open_label_witness :
  let d := Doctor (fields (candidate "place-1" "Derma One"))
             (Some (Details None None None None None
                      (Some (OpeningHours None)) None)) in
  ∃ k, candidate_card d = inr k ∧ card_open_now k = "🔴 Closed".
Proof.
  intros d. eexists. split; [reflexivity|].
  eapply (card_open_label d); [reflexivity|].
  eexists. split; [reflexivity|]. discriminate.
Defined.

Lemma book_submit_store (u : user) (name doctor_place_id patient_name_input
    appt_date appt_time new_id : string) (c : collection) (ss : session) :
  patient_name_input ≠ "" →
  (book_submit u name doctor_place_id patient_name_input appt_date appt_time
     new_id None c ss).1.1
  = <[new_id := appointment_data u patient_name_input name doctor_place_id
                  appt_date appt_time]> c ∧
  (book_submit u name doctor_place_id patient_name_input appt_date appt_time
     new_id None c ss).2 = Rerun.
Proof.
  intros Hne. unfold book_submit, set_doc.
  by rewrite bool_decide_eq_false_2 by done.
Qed.

(** X10: the booking form of a card books under the candidate's place id, so
    the request (the store accepting the write) is listed, with its buttons, for every doctor registered for
    that place, and for no doctor of another place.  The doctor name stored
    is the name of the details, or "N/A" when the candidate has no details
    or they have no name, whatever name the search result carried. *)
Theorem book_candidate_reaches_doctor (u : user) (d : doctor)
    (patient_name_input appt_date appt_time new_id pid : string)
    (c : collection) (ss : session) :
  patient_name_input ≠ "" →
  fields d !! "place_id" = Some pid →
  ∃ r data,
    book_candidate u d patient_name_input appt_date appt_time new_id None c ss
    = inr r ∧
    r.1.1 !! new_id = Some data ∧
    data !! "doctor_place_id" = Some pid ∧
    data !! "doctor_name" = Some (default "N/A" (doctor_details d ≫= d_name)) ∧
    shows_buttons data ∧
    (∀ uid cached docs p,
       load_profile uid cached (Firestore docs r.1.1) = Some p →
       ∃ appts, dashboard_read uid cached (Firestore docs r.1.1) = inr appts ∧
                ((new_id, data) ∈ appts ↔ place_id p = pid)).
Proof.
  intros Hne Hpid. unfold book_candidate, candidate_card. rewrite Hpid.
  eexists _, _. split; [done|].
  cbn [card_name card_place_id].
  destruct (book_submit_store u (default "N/A" (d_name (default no_details (doctor_details d))))
              pid patient_name_input appt_date appt_time new_id c ss Hne) as [Hc _].
  rewrite Hc. split_and!.
  - by rewrite lookup_insert_eq.
  - done.
  - by destruct (doctor_details d).
  - done.
  - intros uid cached docs p Hp. unfold dashboard_read. rewrite Hp.
    eexists. split; [done|]. simpl. rewrite where_eq_elem, lookup_insert_eq.
    split.
    + intros [_ H]. by injection H.
    + intros ->. done.
Qed.

Lemma book_candidate_reaches_doctor_witness :
  ∃ r data,
    book_candidate asha (candidate "place-rao" "Rao Skin Clinic") "Asha Verma"
      "2025-03-01" "10:30:00" "appt-9" None ∅ fresh_session = inr r ∧
    r.1.1 !! "appt-9" = Some data ∧
    data !! "doctor_place_id" = Some "place-rao" ∧
    data !! "doctor_name" = Some "N/A".
Proof.
  destruct (book_candidate_reaches_doctor asha
              (candidate "place-rao" "Rao Skin Clinic") "Asha Verma"
              "2025-03-01" "10:30:00" "appt-9" "place-rao" ∅ fresh_session)
    as (r & data & H1 & H2 & H3 & H4 & _); [discriminate | reflexivity |].
  exists r, data. split_and!; [exact H1 | exact H2 | exact H3 | exact H4].
Defined.

(** ** Listings *)

(** X11: each appointment table lists exactly the stored appointments of its
    reader, each once: the patient tab those whose [patient_id] is the
    user's id, the dashboard those whose [doctor_place_id] is the place id
    of the doctor's profile.  The patient tab shows one row per such
    appointment and the empty-list warning when there is none. *)
Theorem listings_exact :
  (∀ u c,
     NoDup (my_appointments u c).*1 ∧
     (∀ id d, (id, d) ∈ my_appointments u c ↔
              c !! id = Some d ∧ d !! "patient_id" = Some (localId u)) ∧
     length (patient_tab u c).2 = length (my_appointments u c) ∧
     ((patient_tab u c).1 = Done ↔
      ∃ id d, c !! id = Some d ∧ d !! "patient_id" = Some (localId u))) ∧
  (∀ uid cached db p,
     load_profile uid cached db = Some p →
     ∃ appts, dashboard_read uid cached db = inr appts ∧
       NoDup appts.*1 ∧
       ∀ id d, (id, d) ∈ appts ↔
               appointments db !! id = Some d ∧
               d !! "doctor_place_id" = Some (place_id p)).
Proof.
  split.
  - intros u c. split_and!.
    + apply where_eq_nodup.
    + intros id d. apply where_eq_elem.
    + unfold patient_tab. destruct (my_appointments u c); [done|].
      simpl. by rewrite length_fmap.
    + unfold patient_tab.
      destruct (my_appointments u c) as [|[id d] l] eqn:E; simpl.
      * split; [discriminate|]. intros (id & d & H).
        apply (where_eq_elem "patient_id" (localId u)) in H.
        unfold my_appointments in E. rewrite E in H. by apply elem_of_nil in H.
      * split; [|done]. intros _. exists id, d.
        apply (where_eq_elem "patient_id" (localId u)).
        unfold my_appointments in E. rewrite E. by left.
  - intros uid cached db p Hp. unfold dashboard_read. rewrite Hp.
    eexists. split_and!; [done|apply where_eq_nodup|].
    intros id d. apply where_eq_elem.
Qed.

Lemma listings_exact_witness :
  ∃ appts, dashboard_read "uid-sen" None (sample_db "Pending") = inr appts ∧
           NoDup appts.*1 ∧
           ∀ id d, (id, d) ∈ appts ↔
                   appointments (sample_db "Pending") !! id = Some d ∧
                   d !! "doctor_place_id" = Some (place_id sen).
Proof.
  apply (proj2 listings_exact "uid-sen" None (sample_db "Pending") sen).
  reflexivity.
Defined.

(** ** Booking, then listing *)

(** X12: a request booked under a new id, and accepted by the store, shows
    up in the booking patient's tab as Pending with the doctor, date and
    time of the form; what any
    user saw before is still listed, and the tabs of other users list the
    same appointments as before. *)
Theorem booking_round_trip (u : user) (name doctor_place_id patient_name_input
    appt_date appt_time new_id : string) (c : collection) (ss : session) :
  patient_name_input ≠ "" →
  c !! new_id = None →
  let c' := (book_submit u name doctor_place_id patient_name_input appt_date
               appt_time new_id None c ss).1.1 in
  let data := appointment_data u patient_name_input name doctor_place_id
                appt_date appt_time in
  (new_id, data) ∈ my_appointments u c' ∧
  patient_row data = AppointmentRow (Some name) (Some appt_date) (Some appt_time)
                       "Pending" ∧
  status_badge (row_status (patient_row data)) = Some BadgeWarning ∧
  (∀ u' id d, (id, d) ∈ my_appointments u' c → (id, d) ∈ my_appointments u' c') ∧
  (∀ u' id d, localId u' ≠ localId u →
     ((id, d) ∈ my_appointments u' c' ↔ (id, d) ∈ my_appointments u' c)) ∧
  length (my_appointments u c') = S (length (my_appointments u c)).
Proof.
  intros Hne Hnew c' data.
  assert (c' = <[new_id := data]> c) as Hc'.
  { subst c' data. by apply book_submit_store. }
  assert (data !! "patient_id" = Some (localId u)) as Hpat by done.
  split_and!.
  - apply where_eq_elem. rewrite Hc', lookup_insert_eq. done.
  - done.
  - done.
  - intros u' id d [Hd Hp]%where_eq_elem. apply where_eq_elem.
    split; [|done]. rewrite Hc', lookup_insert_ne; [done|congruence].
  - intros u' id d Hu'. unfold my_appointments. rewrite !where_eq_elem, Hc'.
    destruct (decide (id = new_id)) as [->|Hid].
    + rewrite lookup_insert_eq, Hnew. split; [|by intros [? _]].
      intros [[= <-] Hp]. rewrite Hpat in Hp. congruence.
    + by rewrite lookup_insert_ne.
  - unfold my_appointments, where_eq. rewrite Hc'.
    rewrite map_to_list_insert by done. rewrite filter_cons.
    rewrite decide_True by done. done.
Qed.

Lemma booking_round_trip_witness :
  ("appt-1", rao_request "Pending")
  ∈ my_appointments asha
      (book_submit asha "Rao Skin Clinic" "place-rao" "Asha Verma" "2025-03-01"
         "10:30:00" "appt-1" None (<["appt-2" := sen_request]> ∅)
         fresh_session).1.1.
Proof.
  destruct (booking_round_trip asha "Rao Skin Clinic" "place-rao" "Asha Verma"
              "2025-03-01" "10:30:00" "appt-1" (<["appt-2" := sen_request]> ∅)
              fresh_session) as [H _]; [discriminate | reflexivity |].
  exact H.
Defined.

(** X13: after a booking the store accepted, an Accept by a doctor
    registered for the booked place makes the patient's tab show the same request as Accepted, with
    the doctor, date and time as booked (and likewise Declined). *)
Theorem booking_then_transition (u : user) (name doctor_place_id
    patient_name_input appt_date appt_time new_id : string) (c : collection)
    (ss : session) (docs : gmap string profile) (uid : string)
    (cached : option profile) (p : profile) (ck : click) (st : string) :
  patient_name_input ≠ "" →
  load_profile uid cached (Firestore docs ∅) = Some p →
  place_id p = doctor_place_id →
  (ck = Accept new_id ∧ st = "Accepted") ∨ (ck = Decline new_id ∧ st = "Declined") →
  let c' := (book_submit u name doctor_place_id patient_name_input appt_date
               appt_time new_id None c ss).1.1 in
  let run := doctor_dashboard uid cached ck (Firestore docs c') in
  run.2 = Rerun ∧
  ∃ d2, appointments run.1 !! new_id = Some d2 ∧
        (new_id, d2) ∈ my_appointments u (appointments run.1) ∧
        patient_row d2 = AppointmentRow (Some name) (Some appt_date)
                           (Some appt_time) st ∧
        d2 !! "patient_name" = Some patient_name_input.
Proof.
  intros Hne Hp Hplace Hck c' run.
  set (data := appointment_data u patient_name_input name doctor_place_id
                 appt_date appt_time).
  assert (c' = <[new_id := data]> c) as Hc'.
  { subst c' data. by apply book_submit_store. }
  assert (run = (Firestore docs (<[new_id := <["status" := st]> data]> c'), Rerun))
    as ->.
  { subst run.
    apply (doctor_dashboard_transition uid cached ck (Firestore docs c') p
             new_id st data).
    - by destruct cached.
    - simpl. by rewrite Hc', lookup_insert_eq.
    - by rewrite Hplace.
    - done.
    - done. }
  split; [done|]. exists (<["status" := st]> data). simpl.
  split_and!.
  - by rewrite lookup_insert_eq.
  - apply where_eq_elem. by rewrite lookup_insert_eq.
  - unfold patient_row. rewrite lookup_insert_eq. by rewrite !lookup_insert_ne.
  - by rewrite lookup_insert_ne.
Qed.

Lemma booking_then_transition_witness :
  let c' := (book_submit asha "Rao Skin Clinic" "place-rao" "Asha Verma"
               "2025-03-01" "10:30:00" "appt-1" None ∅ fresh_session).1.1 in
  (doctor_dashboard "uid-rao" None (Accept "appt-1")
     (Firestore sample_doctors c')).2 = Rerun.
Proof.
  intros c'.
  destruct (booking_then_transition asha "Rao Skin Clinic" "place-rao"
              "Asha Verma" "2025-03-01" "10:30:00" "appt-1" ∅ fresh_session
              sample_doctors "uid-rao" None rao (Accept "appt-1") "Accepted")
    as [H _];
    [discriminate | reflexivity | reflexivity | left; split; reflexivity |].
  exact H.
Defined.

(** X14: requests are not deduplicated: submitting the same form twice, each
    time under a new id and accepted by the store, stores two equal requests, and both are listed. *)
Theorem booking_twice_stores_two (u : user) (name doctor_place_id
    patient_name_input appt_date appt_time id1 id2 : string) (c : collection)
    (ss : session) :
  patient_name_input ≠ "" →
  c !! id1 = None → c !! id2 = None → id1 ≠ id2 →
  let r1 := book_submit u name doctor_place_id patient_name_input appt_date
              appt_time id1 None c ss in
  let r2 := book_submit u name doctor_place_id patient_name_input appt_date
              appt_time id2 None r1.1.1 r1.1.2 in
  let data := appointment_data u patient_name_input name doctor_place_id
                appt_date appt_time in
  r2.1.1 !! id1 = Some data ∧ r2.1.1 !! id2 = Some data ∧
  size r2.1.1 = S (S (size c)) ∧
  (id1, data) ∈ my_appointments u r2.1.1 ∧
  (id2, data) ∈ my_appointments u r2.1.1.
Proof.
  intros Hne H1 H2 Hid r1 r2 data.
  assert (r1.1.1 = <[id1 := data]> c) as Hr1.
  { subst r1 data. by apply book_submit_store. }
  assert (r2.1.1 = <[id2 := data]> (<[id1 := data]> c)) as Hr2.
  { subst r2 data. rewrite <- Hr1. by apply book_submit_store. }
  rewrite Hr2.
  assert (<[id2:=data]> (<[id1:=data]> c) !! id1 = Some data) as L1.
  { rewrite lookup_insert_ne by done. by rewrite lookup_insert_eq. }
  assert (<[id2:=data]> (<[id1:=data]> c) !! id2 = Some data) as L2.
  { by rewrite lookup_insert_eq. }
  split_and!; [done|done| |by apply where_eq_elem..].
  rewrite !map_size_insert_None; [done|done|].
  by rewrite lookup_insert_ne.
Qed.

Lemma booking_twice_stores_two_witness :
  let r1 := book_submit asha "Rao Skin Clinic" "place-rao" "Asha Verma"
              "2025-03-01" "10:30:00" "appt-7" None ∅ fresh_session in
  let r2 := book_submit asha "Rao Skin Clinic" "place-rao" "Asha Verma"
              "2025-03-01" "10:30:00" "appt-8" None r1.1.1 r1.1.2 in
  size r2.1.1 = 2.
Proof.
  intros r1 r2.
  destruct (booking_twice_stores_two asha "Rao Skin Clinic" "place-rao"
              "Asha Verma" "2025-03-01" "10:30:00" "appt-7" "appt-8" ∅
              fresh_session) as (_ & _ & H & _);
    [discriminate | reflexivity | reflexivity | discriminate |].
  exact H.
Defined.

(** ** What the handlers keep *)

(** X15: a run of the dashboard never creates or deletes an appointment and
    never touches the doctor profiles; every appointment keeps all its
    fields other than [status], so who is shown a request never changes.
    The booking form, whether its write is accepted or raises, adds at most
    the generated id and removes nothing. *)
Theorem handlers_keep_records :
  (∀ uid cached ck db,
     let db' := (doctor_dashboard uid cached ck db).1 in
     doctors db' = doctors db ∧
     dom (appointments db') = dom (appointments db) ∧
     ∀ id d, appointments db !! id = Some d →
       ∃ d', appointments db' !! id = Some d' ∧
             ∀ k, k ≠ "status" → d' !! k = d !! k) ∧
  (∀ u name doctor_place_id patient_name_input appt_date appt_time new_id
     set_error c ss,
     let c' := (book_submit u name doctor_place_id patient_name_input appt_date
                  appt_time new_id set_error c ss).1.1 in
     dom c ⊆ dom c' ∧ dom c' ⊆ {[new_id]} ∪ dom c ∧
     ∀ id, id ≠ new_id → c' !! id = c !! id).
Proof.
  split.
  - intros uid cached ck db db'. subst db'.
    destruct (doctor_dashboard_cases uid cached ck db)
      as [(o & -> & _)|(p & id & d & st & _ & Hd & _ & _ & _ & ->)]; simpl.
    + split_and!; [done..|]. intros id d Hd. eauto.
    + split_and!; [done| |].
      * rewrite dom_insert_L. apply elem_of_dom_2 in Hd.
        apply subseteq_union_1_L. by apply singleton_subseteq_l.
      * intros id' d' Hd'. destruct (decide (id' = id)) as [->|Hne].
        -- assert (d' = d) as -> by congruence.
           rewrite lookup_insert_eq. eexists. split; [done|].
           intros k Hk. by rewrite lookup_insert_ne.
        -- rewrite lookup_insert_ne by done. eauto.
  - intros u name pid pn date time new_id set_error c ss c'. subst c'.
    unfold book_submit, set_doc. case_bool_decide; simpl.
    + split_and!; [done|set_solver|done].
    + destruct set_error as [e|]; simpl.
      * split_and!; [done|set_solver|done].
      * rewrite dom_insert_L. split_and!; [set_solver|set_solver|].
        intros id Hid. by rewrite lookup_insert_ne.
Qed.

Lemma handlers_keep_records_witness :
  dom (appointments
         (doctor_dashboard "uid-rao" None (Accept "appt-1") (sample_db "Pending")).1)
  = dom (appointments (sample_db "Pending")).
Proof.
  apply (proj1 handlers_keep_records "uid-rao" None (Accept "appt-1")
           (sample_db "Pending")).
Defined.

Lemma known_status_insert (d : document) (st : string) :
  st = "Pending" ∨ st = "Accepted" ∨ st = "Declined" →
  known_status (<["status" := st]> d).
Proof.
  intros H. unfold known_status. rewrite lookup_insert_eq.
  destruct H as [->|[->| ->]]; auto.
Qed.

(** X16: when every stored appointment has one of the statuses Pending,
    Accepted and Declined, it is still so after any run of the dashboard
    and after any booking, whether its write is accepted or raises. *)
Theorem statuses_stay_known :
  (∀ uid cached ck db,
     statuses_known (appointments db) →
     statuses_known (appointments (doctor_dashboard uid cached ck db).1)) ∧
  (∀ u name doctor_place_id patient_name_input appt_date appt_time new_id
     set_error c ss,
     statuses_known c →
     statuses_known (book_submit u name doctor_place_id patient_name_input
                       appt_date appt_time new_id set_error c ss).1.1).
Proof.
  split.
  - intros uid cached ck db Hk.
    destruct (doctor_dashboard_cases uid cached ck db)
      as [(o & -> & _)|(p & id & d & st & _ & _ & _ & _ & Hck & ->)]; [done|].
    simpl. apply map_Forall_insert_2; [|done].
    apply known_status_insert. destruct Hck as [[_ ->]|[_ ->]]; auto.
  - intros u name pid pn date time new_id set_error c ss Hk.
    unfold book_submit, set_doc. case_bool_decide; simpl; [done|].
    destruct set_error as [e|]; simpl; [done|].
    apply map_Forall_insert_2; [|done]. left. done.
Qed.

Lemma statuses_stay_known_witness :
  statuses_known
    (appointments
       (doctor_dashboard "uid-rao" None (Decline "appt-1") (sample_db "Pending")).1).
Proof.
  apply (proj1 statuses_stay_known "uid-rao" None (Decline "appt-1")
           (sample_db "Pending")).
  apply (bool_decide_unpack _). vm_compute. exact I.
Defined.

(** X17: a run that was not triggered by a button, or whose button names an
    appointment that is not stored, writes nothing. *)
Theorem dashboard_without_target (uid : string) (cached : option profile)
    (ck : click) (db : firestore) :
  ck = NoClick ∨
  (∃ id, (ck = Accept id ∨ ck = Decline id) ∧ appointments db !! id = None) →
  ∃ o, doctor_dashboard uid cached ck db = (db, o) ∧ nothing_written o.
Proof.
  intros Hck.
  destruct (doctor_dashboard_cases uid cached ck db)
    as [?|(p & id & d & st & _ & Hd & _ & _ & Hck' & _)]; [done|].
  exfalso. destruct Hck as [->|(id' & Hid' & Hnone)].
  - destruct Hck' as [[? _]|[? _]]; discriminate.
  - assert (id' = id) as ->.
    { destruct Hid' as [->| ->], Hck' as [[? _]|[? _]]; congruence. }
    congruence.
Qed.

Lemma dashboard_without_target_witness :
  ∃ o, doctor_dashboard "uid-rao" None NoClick (sample_db "Pending")
       = (sample_db "Pending", o) ∧ nothing_written o.
Proof.
  apply (dashboard_without_target "uid-rao" None NoClick (sample_db "Pending")).
  left. reflexivity.
Defined.

(** X18: an appointment stored without a [status] field is shown as Pending
    in both tables and can be accepted or declined like a Pending one; an
    appointment whose status is any other text than the three known ones
    gets no badge, no buttons, and is never changed by the dashboard. *)
Theorem status_edge_cases :
  (∀ uid cached ck db p id st d,
     load_profile uid cached db = Some p →
     appointments db !! id = Some d →
     d !! "doctor_place_id" = Some (place_id p) →
     d !! "status" = None →
     (ck = Accept id ∧ st = "Accepted") ∨ (ck = Decline id ∧ st = "Declined") →
     row_status (patient_row d) = "Pending" ∧
     doctor_dashboard uid cached ck db
     = (Firestore (doctors db) (<[id := <["status" := st]> d]> (appointments db)),
        Rerun)) ∧
  (∀ uid cached ck db id s d,
     appointments db !! id = Some d →
     d !! "status" = Some s →
     s ≠ "Pending" → s ≠ "Accepted" → s ≠ "Declined" →
     status_badge (row_status (patient_row d)) = None ∧
     ¬ shows_buttons d ∧
     appointments (doctor_dashboard uid cached ck db).1 !! id = Some d).
Proof.
  split.
  - intros uid cached ck db p id st d Hp Hd Hplace Hs Hck. split.
    + unfold patient_row. simpl. by rewrite Hs.
    + apply (doctor_dashboard_transition uid cached ck db p id st d); try done.
      unfold shows_buttons. by rewrite Hs.
  - intros uid cached ck db id s d Hd Hs H1 H2 H3. split_and!.
    + unfold patient_row, status_badge. simpl. rewrite Hs. simpl.
      by rewrite !bool_decide_eq_false_2 by done.
    + unfold shows_buttons. by rewrite Hs.
    + by eapply doctor_dashboard_frozen.
Qed.

Lemma status_edge_cases_witness :
  let d := delete "status" (rao_request "Pending") in
  let db := Firestore sample_doctors (<["appt-1" := d]> ∅) in
  doctor_dashboard "uid-rao" None (Accept "appt-1") db
  = (Firestore sample_doctors (<["appt-1" := <["status" := "Accepted"]> d]> ∅),
     Rerun).
Proof.
  intros d db.
  destruct (proj1 status_edge_cases "uid-rao" None (Accept "appt-1") db rao
              "appt-1" "Accepted" d) as [_ H];
    [reflexivity | reflexivity | reflexivity | reflexivity
    | left; split; reflexivity |].
  rewrite H. vm_compute. reflexivity.
Defined.

(** ** The flash message *)

(** X19: the confirmation of a booking the store accepted is shown by the
    next run and by that run only: showing it clears it, and nothing else of the session is
    touched. *)
Theorem confirmation_shown_once (u : user) (name doctor_place_id
    patient_name_input appt_date appt_time new_id : string) (c : collection)
    (ss : session) :
  patient_name_input ≠ "" →
  let ss1 := (book_submit u name doctor_place_id patient_name_input appt_date
                appt_time new_id None c ss).1.2 in
  let first := show_confirmation ss1 in
  let second := show_confirmation first.2 in
  first.1 = Some ("✅ Success! Your appointment request for " +:+ name
                    +:+ " has been sent.") ∧
  second.1 = None ∧
  second.2 = first.2 ∧
  first.2 = Session (prediction ss) (specialist ss) (doctors_list ss)
              (map_data_list ss) None.
Proof.
  intros Hne ss1 first second. subst second first ss1.
  unfold book_submit. rewrite bool_decide_eq_false_2 by done.
  unfold show_confirmation. simpl. done.
Qed.

Lemma confirmation_shown_once_witness :
  (show_confirmation
     (book_submit asha "Rao Skin Clinic" "place-rao" "Asha Verma" "2025-03-01"
        "10:30:00" "appt-1" None ∅ fresh_session).1.2).1
  = Some "✅ Success! Your appointment request for Rao Skin Clinic has been sent.".
Proof.
  destruct (confirmation_shown_once asha "Rao Skin Clinic" "place-rao"
              "Asha Verma" "2025-03-01" "10:30:00" "appt-1" ∅ fresh_session)
    as [H _]; [discriminate|].
  exact H.
Defined.

(** ** Accounts *)

Section AccountProperties.

Variable sign_in : string → string → exn + user.
Variable create_user : string → string → exn + account.
Variable delete_user_account : string → exn + unit.
Variable places_query : string → exn + places_result.

Lemma doctor_signup_filled (email password cn cl : string) :
  email ≠ "" → password ≠ "" → cn ≠ "" → cl ≠ "" →
  bool_decide (email = "") || bool_decide (password = "")
  || bool_decide (cn = "") || bool_decide (cl = "") = false.
Proof. intros. by rewrite !bool_decide_eq_false_2 by done. Qed.

(** X20: when the clinic search of a doctor signup returns no result, the
    account that was just created is deleted again with its own token, no
    profile is stored, and the form stops with the not-found error (or with
    the failure of the deletion, if that raises). *)
Theorem doctor_signup_rollback (email password cn cl : string) (db : firestore)
    (acc : account) (r : places_result) :
  email ≠ "" → password ≠ "" → cn ≠ "" → cl ≠ "" →
  create_user email password = inr acc →
  places_query (cn +:+ " " +:+ cl) = inr r →
  default [] (results r) = [] →
  let run := doctor_signup create_user delete_user_account places_query
               email password cn cl db in
  run.1.1 = db ∧
  run.1.2 = [CreateUser email password; DeleteUser (acc_idToken acc)] ∧
  (delete_user_account (acc_idToken acc) = inr tt →
   run.2 = FormStopped ("Error: Could not find a clinic matching '"
                          +:+ (cn +:+ " " +:+ cl) +:+ "'.")) ∧
  (∀ e, delete_user_account (acc_idToken acc) = inl e → run.2 = FormFailed e).
Proof.
  intros H1 H2 H3 H4 Hc Hp Hr run. subst run. unfold doctor_signup.
  rewrite doctor_signup_filled by done. rewrite Hc, Hp, Hr.
  destruct (delete_user_account (acc_idToken acc)) as [e|[]]; simpl.
  - split_and!; [done|done|discriminate|]. by intros ? [= ->].
  - split_and!; [done|done|done|discriminate].
Qed.

(** X21: a doctor signup whose clinic search has a first result with name,
    address and place id stores, under the new account's id, a profile with
    the entered email and those three values of the first result, and does
    nothing else to the store; a login of that account whose profile lookup
    answers is then given the doctor role with this profile and is routed to
    the dashboard. *)
Theorem doctor_signup_then_login (email password cn cl : string) (db : firestore)
    (acc : account) (r : places_result) (top : doctor) (rest : list doctor)
    (found_name found_address found_place_id : string) :
  email ≠ "" → password ≠ "" → cn ≠ "" → cl ≠ "" →
  create_user email password = inr acc →
  places_query (cn +:+ " " +:+ cl) = inr r →
  default [] (results r) = top :: rest →
  fields top !! "name" = Some found_name →
  fields top !! "formatted_address" = Some found_address →
  fields top !! "place_id" = Some found_place_id →
  let run := doctor_signup create_user delete_user_account places_query
               email password cn cl db in
  let prof := Profile email found_name found_address found_place_id in
  run.1.1 = Firestore (<[acc_localId acc := prof]> (doctors db)) (appointments db) ∧
  run.1.2 = [CreateUser email password] ∧
  run.2 = FormSuccess ("Success! Your profile for '" +:+ found_name
                         +:+ "' is created. Please log in.") ∧
  (∀ u st, sign_in email password = inr u → localId u = acc_localId acc →
     login sign_in email password (Some run.1.1) None st
     = (LoginState (Some u) (Some "doctor") (Some prof), Rerun) ∧
     route (login sign_in email password (Some run.1.1) None st).1
     = DoctorDashboard ∧
     dashboard_read (localId u) None run.1.1
     = inr (where_eq "doctor_place_id" found_place_id (appointments db))).
Proof.
  intros H1 H2 H3 H4 Hc Hp Hr Hn Ha Hpid run prof. subst run. unfold doctor_signup.
  rewrite doctor_signup_filled by done. rewrite Hc, Hp, Hr.
  unfold top_result_profile. rewrite Hn, Ha, Hpid. simpl.
  split_and!; [done..|].
  intros u st Hs Hu. unfold login, check_user_role, dashboard_read, load_profile.
  rewrite Hs, Hu. simpl. rewrite lookup_insert_eq. done.
Qed.

(** X22: the created account is deleted only in the no-result case.  When
    the clinic search raises, or its first result lacks the name, the
    address or the place id, the signup fails with that exception, stores
    no profile, and has made no call to delete the account: the account
    stays, and, having no profile, is given the patient role at login. *)
Theorem doctor_signup_failure_keeps_account (email password cn cl : string)
    (db : firestore) (acc : account) :
  email ≠ "" → password ≠ "" → cn ≠ "" → cl ≠ "" →
  create_user email password = inr acc →
  (∃ e, places_query (cn +:+ " " +:+ cl) = inl e) ∨
  (∃ r top rest, places_query (cn +:+ " " +:+ cl) = inr r ∧
     default [] (results r) = top :: rest ∧
     (fields top !! "name" = None ∨ fields top !! "formatted_address" = None ∨
      fields top !! "place_id" = None)) →
  let run := doctor_signup create_user delete_user_account places_query
               email password cn cl db in
  run.1.1 = db ∧
  run.1.2 = [CreateUser email password] ∧
  (∃ e, run.2 = FormFailed e) ∧
  (doctors db !! acc_localId acc = None →
   ∀ cached, (check_user_role (acc_localId acc) (Some run.1.1) cached).1 = "patient").
Proof.
  intros H1 H2 H3 H4 Hc Hfail run.
  assert (run.1.1 = db ∧ run.1.2 = [CreateUser email password] ∧
          ∃ e, run.2 = FormFailed e) as (Hdb & Hcalls & Hres).
  { subst run. unfold doctor_signup.
    rewrite doctor_signup_filled by done. rewrite Hc.
    destruct Hfail as [[e ->]|(r & top & rest & -> & -> & Hkey)]; [by eauto|].
    unfold top_result_profile.
    destruct (fields top !! "name"); [|by eauto].
    destruct (fields top !! "formatted_address"); [|by eauto].
    destruct (fields top !! "place_id"); [|by eauto].
    by destruct Hkey as [?|[?|?]]. }
  split_and!; [done..|].
  intros Hnone cached. rewrite Hdb. unfold check_user_role. by rewrite Hnone.
Qed.

(** X23: neither signup form calls the identity provider unless every field
    is filled in (and, for a patient, the two passwords agree); when it
    does, its first call creates the account with exactly the entered email
    and password.  A doctor signup never changes the appointments, and it
    changes the profiles only when it succeeds. *)
Theorem signup_validation :
  (∀ email password confirm,
     let run := patient_signup create_user email password confirm in
     (run.1 = [CreateUser email password] ∨ run.1 = []) ∧
     (run.1 ≠ [] ↔
      email ≠ "" ∧ password ≠ "" ∧ confirm ≠ "" ∧ password = confirm)) ∧
  (∀ email password cn cl db,
     let run := doctor_signup create_user delete_user_account places_query
                  email password cn cl db in
     (run.1.2 = [] ∨ ∃ calls, run.1.2 = CreateUser email password :: calls) ∧
     (run.1.2 ≠ [] ↔ email ≠ "" ∧ password ≠ "" ∧ cn ≠ "" ∧ cl ≠ "") ∧
     appointments run.1.1 = appointments db ∧
     ((∀ msg, run.2 ≠ FormSuccess msg) → run.1.1 = db)).
Proof.
  split.
  - intros email password confirm run. subst run. unfold patient_signup.
    destruct (decide (email = "")) as [->|He].
    { simpl. split; [auto|]. split; [done|]. by intros [? _]. }
    destruct (decide (password = "")) as [->|Hp].
    { rewrite bool_decide_eq_false_2 by done. simpl.
      split; [auto|]. split; [done|]. by intros (_ & ? & _). }
    destruct (decide (confirm = "")) as [->|Hc].
    { rewrite !bool_decide_eq_false_2 by done. simpl.
      split; [auto|]. split; [done|]. by intros (_ & _ & ? & _). }
    rewrite !bool_decide_eq_false_2 by done. simpl.
    case_bool_decide as Hm.
    { simpl. split; [auto|]. split; [done|]. by intros (_ & _ & _ & ?). }
    destruct (create_user email password); simpl; (split; [auto|]); by split.
  - intros email password cn cl db run. subst run. unfold doctor_signup.
    destruct (decide (email = "")) as [->|He].
    { simpl. split_and!; [auto| |done|done]. split; [done|]. by intros [? _]. }
    destruct (decide (password = "")) as [->|Hp].
    { rewrite bool_decide_eq_false_2 by done. simpl.
      split_and!; [auto| |done|done]. split; [done|]. by intros (_ & ? & _). }
    destruct (decide (cn = "")) as [->|Hn].
    { rewrite !bool_decide_eq_false_2 by done. simpl.
      split_and!; [auto| |done|done]. split; [done|]. by intros (_ & _ & ? & _). }
    destruct (decide (cl = "")) as [->|Hl].
    { rewrite !bool_decide_eq_false_2 by done. simpl.
      split_and!; [auto| |done|done]. split; [done|]. by intros (_ & _ & _ & ?). }
    rewrite doctor_signup_filled by done.
    assert (∀ (x : firestore * list auth_call * form_result) calls,
              x.1.2 = CreateUser email password :: calls →
              appointments x.1.1 = appointments db →
              ((∀ msg, x.2 ≠ FormSuccess msg) → x.1.1 = db) →
              (x.1.2 = [] ∨ ∃ calls, x.1.2 = CreateUser email password :: calls) ∧
              (x.1.2 ≠ [] ↔ email ≠ "" ∧ password ≠ "" ∧ cn ≠ "" ∧ cl ≠ "") ∧
              appointments x.1.1 = appointments db ∧
              ((∀ msg, x.2 ≠ FormSuccess msg) → x.1.1 = db)) as Hgo.
    { intros x calls Hx Ha Hd. split_and!; [eauto| |done|done].
      rewrite Hx. split; done. }
    destruct (create_user email password) as [e|acc]; [by eapply Hgo|].
    destruct (places_query _) as [e|r]; [by eapply Hgo|].
    destruct (default [] (results r)) as [|top rest].
    { destruct (delete_user_account _) as [e|?]; by eapply Hgo. }
    destruct (top_result_profile email top) as [e|[? found ? ?]]; [by eapply Hgo|].
    eapply Hgo; [done|done|]. intros Hno. exfalso. by eapply Hno.
Qed.

(** X24: every way a login can end.  When the sign-in raises, the login
    state is left as it was.  When it answers, the user is stored first.  If
    the profile lookup then answers (or there is no database client), the
    script reruns and the user is routed to the doctor dashboard exactly
    when a profile is stored under the account's id, which the session then
    caches, and to the patient pages exactly when none is.  If the lookup
    raises, the user stays stored but no role is set and there is no rerun:
    the form reports the failure, and a state that had no role is routed to
    neither page. *)
Theorem login_routes_by_profile (email password : string)
    (db : option firestore) (get_error : option exn) (st : login_state) :
  (∀ u, sign_in email password = inr u →
     let run := login sign_in email password db get_error st in
     ls_user run.1 = Some u ∧
     (db = None ∨ get_error = None →
      run.2 = Rerun ∧
      (route run.1 = DoctorDashboard ↔
       ∃ db0 p, db = Some db0 ∧ doctors db0 !! localId u = Some p ∧
                ls_doctor_profile run.1 = Some p) ∧
      (route run.1 = PatientApp ↔
       ∀ db0, db = Some db0 → doctors db0 !! localId u = None)) ∧
     (∀ db0 e, db = Some db0 → get_error = Some e →
        run = (LoginState (Some u) (ls_user_role st) (ls_doctor_profile st),
               Raised e) ∧
        (ls_user_role st = None → route run.1 = NoPage))) ∧
  (∀ e, sign_in email password = inl e →
     login sign_in email password db get_error st = (st, Raised e)).
Proof.
  split.
  - intros u Hs run. subst run. unfold login. rewrite Hs.
    assert (∀ r : login_state * outcome,
      r = (let '(role, prof) :=
             check_user_role (localId u) db (ls_doctor_profile st) in
           (LoginState (Some u) (Some role) prof, Rerun)) →
      ls_user r.1 = Some u ∧ r.2 = Rerun ∧
      (route r.1 = DoctorDashboard ↔
       ∃ db0 p, db = Some db0 ∧ doctors db0 !! localId u = Some p ∧
                ls_doctor_profile r.1 = Some p) ∧
      (route r.1 = PatientApp ↔
       ∀ db0, db = Some db0 → doctors db0 !! localId u = None)) as Hok.
    { intros r ->. unfold check_user_role. destruct db as [db0|]; simpl.
      - destruct (doctors db0 !! localId u) as [p|] eqn:E; simpl.
        + split_and!; [done|done| |].
          * split; [|done]. intros _. exists db0, p. done.
          * split; [done|]. intros H. specialize (H db0 eq_refl). congruence.
        + split_and!; [done|done| |].
          * split; [done|]. intros (? & ? & [= <-] & ? & _). congruence.
          * split; [|done]. by intros _ ? [= <-].
      - split_and!; [done|done| |].
        + split; [done|]. by intros (? & ? & ? & _).
        + split; [|done]. by intros _ ? ?. }
    destruct db as [db0|], get_error as [e|].
    + simpl. split_and!; [done| |].
      * by intros [?|?].
      * intros ? ? _ [= <-]. split; [done|]. unfold route. simpl.
        intros ->. done.
    + destruct (Hok _ eq_refl) as (H1 & H2 & H3 & H4).
      split_and!; [done|by intros _|by intros ? ? _ ?].
    + destruct (Hok _ eq_refl) as (H1 & H2 & H3 & H4).
      split_and!; [done|by intros _|by intros ? ? ? ?].
    + destruct (Hok _ eq_refl) as (H1 & H2 & H3 & H4).
      split_and!; [done|by intros _|by intros ? ? ? ?].
  - intros e Hs. unfold login. by rewrite Hs.
Qed.

End AccountProperties.

Lemma doctor_signup_rollback_witness :
  (doctor_signup sample_create_user sample_delete_user_account
     sample_places_query "new@example.org" "secret" "No Such Clinic" "Lucknow"
     (sample_db "Pending")).1.2
  = [CreateUser "new@example.org" "secret"; DeleteUser "token-new@example.org"].
Proof.
  destruct (doctor_signup_rollback sample_create_user sample_delete_user_account
              sample_places_query "new@example.org" "secret" "No Such Clinic"
              "Lucknow" (sample_db "Pending")
              (Account "uid-new@example.org" "token-new@example.org")
              (PlacesResult (Some []))) as (_ & H & _);
    [discriminate | discriminate | discriminate | discriminate
    | reflexivity | reflexivity | reflexivity |].
  exact H.
Defined.

Lemma doctor_signup_then_login_witness :
  (doctor_signup sample_create_user sample_delete_user_account
     sample_places_query "new@example.org" "secret" "Rao Skin Clinic" "Lucknow"
     (sample_db "Pending")).1.2
  = [CreateUser "new@example.org" "secret"].
Proof.
  destruct (doctor_signup_then_login sample_sign_in sample_create_user
              sample_delete_user_account sample_places_query
              "new@example.org" "secret" "Rao Skin Clinic" "Lucknow"
              (sample_db "Pending")
              (Account "uid-new@example.org" "token-new@example.org")
              (PlacesResult (Some
                 [Doctor (dict_literal [("name", "Rao Skin Clinic");
                                        ("formatted_address", "12 Hazratganj, Lucknow");
                                        ("place_id", "place-rao")]) None]))
              (Doctor (dict_literal [("name", "Rao Skin Clinic");
                                     ("formatted_address", "12 Hazratganj, Lucknow");
                                     ("place_id", "place-rao")]) None)
              [] "Rao Skin Clinic" "12 Hazratganj, Lucknow" "place-rao")
    as (_ & H & _);
    [discriminate | discriminate | discriminate | discriminate
    | reflexivity | reflexivity | reflexivity | reflexivity | reflexivity
    | reflexivity |].
  exact H.
Defined.

Lemma doctor_signup_failure_keeps_account_witness :
  (doctor_signup sample_create_user sample_delete_user_account
     (λ _, inl (External "Timeout")) "new@example.org" "secret"
     "Rao Skin Clinic" "Lucknow" (sample_db "Pending")).1.2
  = [CreateUser "new@example.org" "secret"].
Proof.
  destruct (doctor_signup_failure_keeps_account sample_create_user
              sample_delete_user_account (λ _, inl (External "Timeout"))
              "new@example.org" "secret" "Rao Skin Clinic" "Lucknow"
              (sample_db "Pending")
              (Account "uid-new@example.org" "token-new@example.org"))
    as (_ & H & _);
    [discriminate | discriminate | discriminate | discriminate
    | reflexivity | left; eexists; reflexivity |].
  exact H.
Defined.

Lemma signup_validation_witness :
  (patient_signup sample_create_user "new@example.org" "secret" "secrte").1 = [].
Proof.
  destruct (proj1 (signup_validation sample_create_user sample_delete_user_account
                     sample_places_query) "new@example.org" "secret" "secrte")
    as [[H|H] Hiff]; [|exact H].
  exfalso. apply proj1 in Hiff.
  destruct Hiff as (_ & _ & _ & Heq); [by rewrite H|discriminate].
Defined.

Lemma login_routes_by_profile_witness :
  route (login sample_sign_in "rao@example.org" "secret"
           (Some (Firestore (<["uid-rao@example.org" := rao]> ∅) ∅)) None
           (LoginState None None None)).1 = DoctorDashboard ∧
  route (login sample_sign_in "rao@example.org" "secret"
           (Some (Firestore (<["uid-rao@example.org" := rao]> ∅) ∅))
           (Some (External "ServiceUnavailable"))
           (LoginState None None None)).1 = NoPage.
Proof.
  split.
  - destruct (proj1 (login_routes_by_profile sample_sign_in "rao@example.org"
                       "secret"
                       (Some (Firestore (<["uid-rao@example.org" := rao]> ∅) ∅))
                       None (LoginState None None None))
                (User "rao@example.org" "uid-rao@example.org"))
      as (_ & H & _); [reflexivity|].
    destruct H as (_ & H & _); [right; reflexivity|].
    apply H. eexists _, rao. split_and!; reflexivity.
  - destruct (proj1 (login_routes_by_profile sample_sign_in "rao@example.org"
                       "secret"
                       (Some (Firestore (<["uid-rao@example.org" := rao]> ∅) ∅))
                       (Some (External "ServiceUnavailable"))
                       (LoginState None None None))
                (User "rao@example.org" "uid-rao@example.org"))
      as (_ & _ & H); [reflexivity|].
    destruct (H (Firestore (<["uid-rao@example.org" := rao]> ∅) ∅)
                (External "ServiceUnavailable") eq_refl eq_refl) as [_ Hr].
    apply Hr. reflexivity.
Defined.

Lemma model_input_any_catalog_witness :
  ("itching", 1%Z) ∈ model_input ["itching"; "chills"; "itching"] ["itching"] ∧
  1%Z = if bool_decide ("itching" ∈ ["itching"]) then 1%Z else 0%Z.
Proof.
  assert (("itching", 1%Z)
          ∈ model_input ["itching"; "chills"; "itching"] ["itching"]) as Hin.
  { apply (bool_decide_unpack _). vm_compute. exact I. }
  split; [exact Hin|].
  destruct (model_input_any_catalog ["itching"; "chills"; "itching"] ["itching"])
    as (_ & _ & H & _).
  apply (H "itching" 1%Z Hin).
Defined.

Lemma find_doctor_refused_iff_witness :
  find_doctor sample_symptoms sample_predict sample_places sample_place
    ["itching"] "" fresh_session
  = (fresh_session, Warned "Please select at least one symptom or location.").
Proof.
  apply (find_doctor_refused_iff sample_symptoms sample_predict sample_places
           sample_place ["itching"] "" fresh_session).
  right. reflexivity.
Defined.

Lemma map_link_name_has_no_space_witness :
  String.get 3 (replace_space "Rao Skin Clinic") = Some "+"%char.
Proof.
  destruct (map_link_name_has_no_space "Rao Skin Clinic") as (_ & _ & H).
  apply (H 3 " "%char). reflexivity.
Defined.
